(** * generate-widget-reference: the widget reference generator

    A shallow embedding of [generate-widget-reference.py] and the properties
    of its filters, formatters and document assembly.

    Conventions of the embedding.
    - A value decoded by [json.loads] is a [json] term.  A Python [dict] keeps
      its insertion order, so it is an association list; [dict_get] reads the
      first binding of a key.
    - Text is a [string] holding the UTF-8 bytes of the Python [str].  Prefix,
      suffix and substring tests and the lexicographic order agree on bytes
      and on code points; [Py.len] counts code points.
    - A Python exception is [None] in the [option] monad; functions that can
      raise return [option].
    - A number is an integer or a float; a float is held as the rational it
      denotes, so infinities and NaN are left out.
    - [str()] of a float, a list or a dict is the interpreter's and is taken
      as the parameter [repr] of the sections that format values.
    - The world outside the program is three parameters of the program
      section: [request_ok], the URLs of which [urllib.request.Request]
      builds a request; [urlopen], the decoded answer to a request; and
      [stdout_ok], the texts that the standard output can encode. *)

From Stdlib Require Import ZArith QArith Bool List Ascii String Lia.
From Stdlib Require Import DecimalString Sorting.Sorted Sorting.Permutation.
From stdpp Require Import base option list gmap strings.

Local Open Scope Z_scope.
Set Warnings "-register-all".

(** ** Exceptions

    A computation that may raise is an [option]; [let? x := m in k] runs [k]
    on the value of [m] and propagates the exception of [m]. *)

Definition obind {A B : Type} (m : option A) (k : A → option B) : option B :=
  match m with
  | Some a => k a
  | None => None
  end.

Notation "'let?' x ':=' m 'in' k" := (obind m (fun x => k))
  (at level 10, x name, m at level 100, k at level 200).

(** ** JSON values, as [json.loads] returns them *)

Inductive json : Type :=
| JNull
| JBool (b : bool)
| JInt (z : Z)
| JFloat (q : Q)
| JStr (s : string)
| JArr (l : list json)
| JObj (m : list (string * json)).

(** ** Python primitives the program uses *)

Module Py.

(** [s.startswith(p)] *)
Definition startswith (s p : string) : bool := String.prefix p s.

(** [s.endswith(p)] *)
Definition endswith (s p : string) : bool :=
  let n := String.length s in
  let m := String.length p in
  (m <=? n)%nat && String.eqb (String.substring (n - m) m s) p.

(** [p in s] on two strings *)
Fixpoint contains (p s : string) : bool :=
  String.prefix p s ||
  match s with
  | EmptyString => false
  | String _ s' => contains p s'
  end.

(** [sep.join(l)] on a list of strings *)
Definition join (sep : string) (l : list string) : string :=
  String.concat sep l.

(** [str(n)] of an integer *)
Definition str_int (z : Z) : string :=
  NilZero.string_of_int (Z.to_int z).

(** [x in l] for a string [x] and a collection [l] of string literals *)
Definition mem (x : string) (l : list string) : bool :=
  existsb (String.eqb x) l.

(** Truth value of a decoded value: [bool(v)] *)
Definition truthy (v : json) : bool :=
  match v with
  | JNull => false
  | JBool b => b
  | JInt z => negb (z =? 0)
  | JFloat q => negb (Qeq_bool q 0)
  | JStr s => negb (String.eqb s "")
  | JArr l => match l with [] => false | _ => true end
  | JObj m => match m with [] => false | _ => true end
  end.

(** [v == "lit"]: only a [str] equals a string literal *)
Definition is_str (v : json) (lit : string) : bool :=
  match v with
  | JStr s => String.eqb s lit
  | _ => false
  end.

(** [isinstance(v, list)], [isinstance(v, dict)] *)
Definition is_list (v : json) : bool :=
  match v with JArr _ => true | _ => false end.
Definition is_dict (v : json) : bool :=
  match v with JObj _ => true | _ => false end.

(** Lists and dicts are unhashable: using one as a set member or dict key
    raises [TypeError]. *)
Definition hashable (v : json) : bool :=
  match v with JArr _ | JObj _ => false | _ => true end.

(** First binding of [k] in an insertion-ordered dict *)
Fixpoint dict_get (k : string) (m : list (string * json)) : option json :=
  match m with
  | [] => None
  | (k', v) :: m' => if String.eqb k k' then Some v else dict_get k m'
  end.

(** [v.get(k)]: [AttributeError] unless [v] is a dict *)
Definition get (v : json) (k : string) : option (option json) :=
  match v with
  | JObj m => Some (dict_get k m)
  | _ => None
  end.

(** [v.get(k, d)] *)
Definition get_d (v : json) (k : string) (d : json) : option json :=
  let? o := get v k in Some (default d o).

(** [v.get(k, d)] and [v[k]] where [isinstance(v, dict)] has been tested *)
Definition field_d (v : json) (k : string) (d : json) : json :=
  match v with
  | JObj m => default d (dict_get k m)
  | _ => d
  end.

(** [v in S] for a set [S] of string literals: hashes [v] first *)
Definition in_set (v : json) (S : list string) : option bool :=
  if hashable v then
    Some match v with JStr s => mem s S | _ => false end
  else None.

(** [list(v.keys())]: [AttributeError] unless [v] is a dict *)
Definition keys (v : json) : option (list string) :=
  match v with
  | JObj m => Some (map fst m)
  | _ => None
  end.

(** Number of code points of a text held in UTF-8: the bytes that are not
    continuation bytes [10xxxxxx]. *)
Definition is_continuation (c : ascii) : bool :=
  match c with
  | Ascii _ _ _ _ _ _ false true => true
  | _ => false
  end.

Fixpoint len (s : string) : nat :=
  match s with
  | EmptyString => 0
  | String c s' => (if is_continuation c then 0 else 1) + len s'
  end.

(** The code points of a text held in UTF-8, each with its continuation
    bytes: what iterating over a [str] yields. *)
Fixpoint chars (s : string) : list string :=
  match s with
  | EmptyString => []
  | String c s' =>
      match s' with
      | String c' _ =>
          if is_continuation c' then
            match chars s' with
            | h :: t => String c h :: t
            | [] => [String c EmptyString]
            end
          else String c EmptyString :: chars s'
      | EmptyString => [String c EmptyString]
      end
  end.

(** The items of a list when each is a [str]; [str.join] raises
    [TypeError] on any other item. *)
Fixpoint strings (l : list json) : option (list string) :=
  match l with
  | [] => Some []
  | JStr s :: l' => let? r := strings l' in Some (s :: r)
  | _ :: _ => None
  end.

(** [sep.join(v)] on a decoded value: a list of strings, the characters of
    a string or the keys of a dict; anything else is not iterable. *)
Definition join_value (sep : string) (v : json) : option string :=
  match v with
  | JArr l => let? ss := strings l in Some (join sep ss)
  | JStr s => Some (join sep (chars s))
  | JObj m => Some (join sep (map fst m))
  | _ => None
  end.

(** [s.rstrip("/")] *)
Fixpoint rstrip_slash (s : string) : string :=
  match s with
  | EmptyString => EmptyString
  | String c s' =>
      match rstrip_slash s' with
      | EmptyString => if Ascii.eqb c "/" then EmptyString else String c EmptyString
      | r => String c r
      end
  end.

(** [base64.b64encode(s.encode()).decode()]: the text is already held in
    UTF-8, so its bytes are encoded as they are. *)
Definition b64_alphabet : string :=
  "ABCDEFGHIJKLMNOPQRSTUVWXYZabcdefghijklmnopqrstuvwxyz0123456789+/".

Definition b64_digit (n : N) : string :=
  match String.get (N.to_nat n) b64_alphabet with
  | Some c => String c EmptyString
  | None => EmptyString
  end.

Fixpoint b64encode (s : string) : string :=
  match s with
  | EmptyString => EmptyString
  | String a EmptyString =>
      let x := N_of_ascii a in
      b64_digit (x / 4) +:+ b64_digit (x mod 4 * 16) +:+ "=="
  | String a (String b EmptyString) =>
      let x := N_of_ascii a in
      let y := N_of_ascii b in
      b64_digit (x / 4) +:+ b64_digit (x mod 4 * 16 + y / 16)
      +:+ b64_digit (y mod 16 * 4) +:+ "="
  | String a (String b (String c rest)) =>
      let x := N_of_ascii a in
      let y := N_of_ascii b in
      let z := N_of_ascii c in
      b64_digit (x / 4) +:+ b64_digit (x mod 4 * 16 + y / 16)
      +:+ b64_digit (y mod 16 * 4 + z / 64) +:+ b64_digit (z mod 64)
      +:+ b64encode rest
  end%N.

(** [sorted(l)] on strings: lexicographic by code point, stable. *)
Fixpoint insert_str (x : string) (l : list string) : list string :=
  match l with
  | [] => [x]
  | y :: l' => if String.ltb x y then x :: l else y :: insert_str x l'
  end.

Definition sorted_str (l : list string) : list string :=
  fold_right insert_str [] l.

(** The number a [bool], [int] or [float] stands for in comparisons *)
Definition num (v : json) : option Q :=
  match v with
  | JBool b => Some (if b then 1 else 0)%Q
  | JInt z => Some (inject_Z z)
  | JFloat q => Some q
  | _ => None
  end.

(** [a == b] between two hashable values, as a dict compares its keys *)
Definition key_eqb (a b : json) : bool :=
  match a, b with
  | JNull, JNull => true
  | JStr s, JStr t => String.eqb s t
  | _, _ =>
      match num a, num b with
      | Some x, Some y => Qeq_bool x y
      | _, _ => false
      end
  end.

(** [a < b]: between two strings or two numbers; [TypeError] otherwise *)
Definition lt (a b : json) : option bool :=
  match a, b with
  | JStr s, JStr t => Some (String.ltb s t)
  | _, _ =>
      match num a, num b with
      | Some x, Some y => Some (negb (Qle_bool y x))
      | _, _ => None
      end
  end.

(** [sorted(l)] on the keys of a dict.  The keys are pairwise different, so
    the result is the one sorted list when all comparisons are defined.  A
    sort by comparisons cannot place two keys without a comparison across
    their kinds, so it raises as soon as the keys are of two kinds, as this
    insertion does. *)
Fixpoint insert_key (x : json) (l : list json) : option (list json) :=
  match l with
  | [] => Some [x]
  | y :: l' =>
      let? b := lt x y in
      if b then Some (x :: l)
      else let? r := insert_key x l' in Some (y :: r)
  end.

Fixpoint sorted_keys (l : list json) : option (list json) :=
  match l with
  | [] => Some []
  | x :: l' => let? r := sorted_keys l' in insert_key x r
  end.

(** [m.get(k, d)] on a dict [m] with string keys and any key [k]: hashes
    [k] first; only a [str] can be found. *)
Definition lookup_d (m : gmap string json) (k : json) (d : json) : option json :=
  if hashable k then
    Some match k with JStr s => default d (m !! s) | _ => d end
  else None.

Section Str.
(** [repr] stands for Python's rendering of floats, lists and dicts. *)
Variable repr : json → string.

(** [str(v)], as an f-string interpolates it *)
Definition str (v : json) : string :=
  match v with
  | JStr s => s
  | JNull => "None"
  | JBool true => "True"
  | JBool false => "False"
  | JInt z => str_int z
  | _ => repr v
  end.
End Str.

End Py.

(** ** The control filter *)

Definition SKIP_CONTAINS : list string :=
  [ "_font_family"; "_font_size"; "_font_weight"; "_text_transform"; "_font_style";
    "_text_decoration"; "_line_height"; "_letter_spacing"; "_word_spacing";
    "_text_shadow";
    "_box_shadow";
    "_color_stop"; "_color_b"; "_gradient_type"; "_gradient_angle"; "_gradient_position";
    "_xpos"; "_ypos"; "_attachment"; "_repeat"; "_bg_width";
    "_slideshow_"; "_video_link"; "_video_start"; "_video_end"; "_video_fallback";
    "_play_once"; "_privacy_mode"; "_ken_burns";
    "_blur"; "_brightness"; "_contrast"; "_saturate"; "_hue";
    "_stroke_color" ].

Definition SKIP_SUFFIXES : list string :=
  [ "_tablet"; "_mobile"; "_widescreen"; "_laptop"; "_tablet_extra"; "_mobile_extra" ].

Definition SKIP_TYPES : list string :=
  [ "hidden"; "section"; "tabs"; "tab"; "alert"; "divider"; "raw_html";
    "deprecated_notice"; "heading" ].

Definition SKIP_EXACT : list string :=
  [ "background_position"; "background_size"; "background_image";
    "background_video"; "background_color_stop" ].

(** The [for pattern in SKIP_CONTAINS] loop of [should_skip]: [Some b] when
    the loop returns [b] at the first pattern found in the key, [None] when it
    runs to its end. *)
Fixpoint skip_contains_loop (patterns : list string) (key : string) : option bool :=
  match patterns with
  | [] => None
  | pattern :: rest =>
      if Py.contains pattern key then
        if Py.endswith key "_typography" || Py.endswith key "_type"
        then Some false
        else Some true
      else skip_contains_loop rest key
  end.

Definition should_skip (key : string) (ctrl : json) : option bool :=
  if Py.startswith key "_" then Some true else
  let? ty := Py.get ctrl "type" in
  let? in_types := Py.in_set (default JNull ty) SKIP_TYPES in
  if in_types then Some true else
  if existsb (Py.endswith key) SKIP_SUFFIXES then Some true else
  if Py.mem key SKIP_EXACT then Some true else
  match skip_contains_loop SKIP_CONTAINS key with
  | Some b => Some b
  | None =>
      if Py.contains "hover_" key &&
         existsb (fun p => Py.contains p key)
                 ["_position"; "_size"; "_image"; "_video"; "_slideshow"]
      then Some true else
      if Py.contains "css_filter" key && negb (Py.endswith key "css_filter")
      then Some true else
      Some false
  end.

(** ** The control formatter *)

Definition dquote : string := String (Ascii.ascii_of_nat 34) EmptyString.

Definition newline : string := String (Ascii.ascii_of_nat 10) EmptyString.

(** [f"`{key}`"] *)
Definition quoted (key : string) : string := "`" +:+ key +:+ "`".

(** [[k for k in options.keys() if k]] *)
Definition non_empty (keys : list string) : list string :=
  List.filter (fun k => Py.truthy (JStr k)) keys.

Section Formatting.
Variable repr : json → string.

Definition format_control (key : string) (ctrl : json) : option string :=
  let? ctype := Py.get_d ctrl "type" (JStr "unknown") in
  let? default_ := Py.get_d ctrl "default" (JStr "") in
  let? options := Py.get_d ctrl "options" (JObj []) in
  if Py.is_list options then
    Some (quoted key +:+ " (" +:+ Py.str repr ctype +:+ ")")
  else
  let result := quoted key in
  if Py.is_str ctype "select" && Py.truthy options then
    let? ks := Py.keys options in
    let opt_keys := non_empty ks in
    match opt_keys with
    | [] => Some result
    | _ =>
        if (length opt_keys <=? 6)%nat then
          Some (result +:+ " (" +:+ Py.join ", " opt_keys +:+ ")")
        else
          Some (result +:+ " (" +:+ Py.join ", " (firstn 5 opt_keys) +:+ ", +"
                +:+ Py.str_int (Z.of_nat (length opt_keys) - 5) +:+ ")")
    end
  else if Py.is_str ctype "choose" && Py.is_dict options then
    let? opt_keys := Py.keys options in
    Some (result +:+ " (" +:+ Py.join ", " opt_keys +:+ ")")
  else if Py.is_str ctype "repeater" then Some (result +:+ " (repeater)")
  else if Py.is_str ctype "switcher" then Some (result +:+ " (on/off)")
  else if Py.is_str ctype "color" then Some (result +:+ " (color)")
  else if Py.is_str ctype "slider" then
    if Py.truthy default_ && Py.is_dict default_
       && Py.truthy (Py.field_d default_ "size" JNull)
    then
      Some (result +:+ " (slider, default: "
            +:+ Py.str repr (Py.field_d default_ "size" JNull)
            +:+ Py.str repr (Py.field_d default_ "unit" (JStr "")) +:+ ")")
    else Some (result +:+ " (slider)")
  else if Py.is_str ctype "dimensions" then Some (result +:+ " (dimensions)")
  else if Py.is_str ctype "media" then Some (result +:+ " (media)")
  else if Py.is_str ctype "gallery" then Some (result +:+ " (gallery)")
  else if Py.is_str ctype "icons" then Some (result +:+ " (icons)")
  else if Py.is_str ctype "url" then Some (result +:+ " (url)")
  else if Py.is_str ctype "wysiwyg" then Some (result +:+ " (wysiwyg)")
  else if Py.is_str ctype "text" || Py.is_str ctype "textarea"
          || Py.is_str ctype "number" then
    match default_ with
    | JStr d =>
        if Py.truthy default_ && (Py.len d <? 30)%nat then
          Some (result +:+ " (" +:+ Py.str repr ctype +:+ ", default: "
                +:+ dquote +:+ d +:+ dquote +:+ ")")
        else Some (result +:+ " (" +:+ Py.str repr ctype +:+ ")")
    | _ => Some (result +:+ " (" +:+ Py.str repr ctype +:+ ")")
    end
  else Some (result +:+ " (" +:+ Py.str repr ctype +:+ ")").

(** ** Grouping and the widget block *)

(** The first loop of [format_widget]: [section_labels] and [section_tabs]
    of the section-header controls. *)
Fixpoint collect_sections (controls : list (string * json))
    (section_labels section_tabs : gmap string json)
    : option (gmap string json * gmap string json) :=
  match controls with
  | [] => Some (section_labels, section_tabs)
  | (key, ctrl) :: rest =>
      let? ty := Py.get ctrl "type" in
      if Py.is_str (default JNull ty) "section" then
        let? label := Py.get_d ctrl "label" (JStr key) in
        let? tab := Py.get_d ctrl "tab" (JStr "content") in
        collect_sections rest (<[key:=label]> section_labels)
                              (<[key:=tab]> section_tabs)
      else collect_sections rest section_labels section_tabs
  end.

(** A value of [grouped] *)
Record group : Type := Group {
  g_label : json;
  g_tab : json;
  g_controls : list (string * json)
}.

(** [ctrl.get("section", "other")] *)
Definition control_section (ctrl : json) : option json :=
  Py.get_d ctrl "section" (JStr "other").

(** [ctrl.get("tab", section_tabs.get(section, "content"))]: the default
    argument is evaluated before the call. *)
Definition control_tab (section_tabs : gmap string json)
    (ctrl section : json) : option json :=
  let? d := Py.lookup_d section_tabs section (JStr "content") in
  Py.get_d ctrl "tab" d.

(** [f"{tab}|{section}"] *)
Definition group_key (tab section : json) : string :=
  Py.str repr tab +:+ "|" +:+ Py.str repr section.

(** Creation of the group when its key is new, then the append. *)
Fixpoint add_to_group (gk : string) (label tab : json)
    (entry : string * json) (grouped : list (string * group))
    : list (string * group) :=
  match grouped with
  | [] => [(gk, Group label tab [entry])]
  | (k, g) :: rest =>
      if String.eqb k gk then
        (k, Group (g_label g) (g_tab g) (g_controls g ++ [entry])) :: rest
      else (k, g) :: add_to_group gk label tab entry rest
  end.

(** [grouped[gk]] when [gk in grouped] *)
Fixpoint group_at (gk : string) (grouped : list (string * group)) : option group :=
  match grouped with
  | [] => None
  | (k, g) :: rest => if String.eqb k gk then Some g else group_at gk rest
  end.

(** The tab a control is filed under: its own [tab], else the tab of its
    section header, else [content]. *)
Definition effective_tab (section_tabs : gmap string json) (ctrl : json)
    : option json :=
  let? section := control_section ctrl in
  control_tab section_tabs ctrl section.

(** One turn of the grouping loop of [format_widget] *)
Definition file_control (section_labels section_tabs : gmap string json)
    (kc : string * json) (grouped : list (string * group))
    : option (list (string * group)) :=
  let '(key, ctrl) := kc in
  let? skip := should_skip key ctrl in
  if skip then Some grouped else
  let? section := control_section ctrl in
  let? tab := control_tab section_tabs ctrl section in
  if Py.is_str tab "advanced" then Some grouped else
  let? label := Py.lookup_d section_labels section section in
  Some (add_to_group (group_key tab section) label tab (key, ctrl) grouped).

(** The grouping loop of [format_widget] *)
Fixpoint group_controls (section_labels section_tabs : gmap string json)
    (controls : list (string * json)) (grouped : list (string * group))
    : option (list (string * group)) :=
  match controls with
  | [] => Some grouped
  | kc :: rest =>
      let? grouped := file_control section_labels section_tabs kc grouped in
      group_controls section_labels section_tabs rest grouped
  end.

(** [[format_control(k, c) for k, c in group["controls"]]] *)
Fixpoint format_controls (cs : list (string * json)) : option (list string) :=
  match cs with
  | [] => Some []
  | (k, c) :: rest =>
      let? s := format_control k c in
      let? r := format_controls rest in
      Some (s :: r)
  end.

(** The bullet lines of the groups of one tab *)
Fixpoint tab_lines (tab_name : string) (tab_groups : list (string * group))
    : option (list string) :=
  match tab_groups with
  | [] => Some []
  | (_, g) :: rest =>
      let? ctrl_strs := format_controls (g_controls g) in
      let? r := tab_lines tab_name rest in
      match ctrl_strs with
      | [] => Some r
      | _ =>
          Some (("- **" +:+ Py.str repr (g_label g) +:+ "** (" +:+ tab_name
                 +:+ "): " +:+ Py.join " · " ctrl_strs) :: r)
      end
  end.

(** The loop over [["content", "style"]] *)
Fixpoint widget_lines (tab_names : list string) (grouped : list (string * group))
    : option (list string) :=
  match tab_names with
  | [] => Some []
  | tab_name :: rest =>
      let tab_groups :=
        List.filter (fun kv => Py.is_str (g_tab (snd kv)) tab_name) grouped in
      let? here := tab_lines tab_name tab_groups in
      let? r := widget_lines rest grouped in
      Some (here ++ r)
  end.

(** The heading and the optional keyword line *)
Definition header_lines (name : string) (detail : json) : option (list string) :=
  let? title := Py.get_d detail "title" (JStr name) in
  let? keywords := Py.get_d detail "keywords" (JArr []) in
  let heading := "### `" +:+ name +:+ "` — " +:+ Py.str repr title in
  if Py.truthy keywords then
    let? kw := Py.join_value ", " keywords in
    Some [heading; "*" +:+ kw +:+ "*"]
  else Some [heading].

(** [grouped] as the two loops over [controls.items()] leave it *)
Definition widget_groups (controls : list (string * json))
    : option (list (string * group)) :=
  let? meta := collect_sections controls ∅ ∅ in
  group_controls meta.1 meta.2 controls [].

Definition format_widget (name : string) (detail : json) : option string :=
  let? header := header_lines name detail in
  let? controls := Py.get_d detail "controls" (JObj []) in
  match controls with
  | JObj cs =>
      let? grouped := widget_groups cs in
      let? bullets := widget_lines ["content"; "style"] grouped in
      Some (Py.join newline (header ++ bullets))
  | _ => None
  end.

End Formatting.

(** ** The program *)

(** What a run does to the outside world, in order.  [Stderr] and [Stdout]
    carry the argument of one [print] that wrote its text; [StderrSkip name]
    is the line [SKIP name: e], whose exception text [e] is not modelled;
    [Get] is one [urlopen] of a request with its [Authorization] header: it is
    recorded only once [urllib.request.Request] has built the request, so a
    URL the constructor rejects leaves no [Get]; [Uncaught] is an exception
    that reaches the top level.  A trace that ends with neither [Exit] nor
    [Uncaught] is a run that ends normally.  Input and output errors of the
    two streams (a closed pipe, a full disk) are not modelled. *)
Inductive event : Type :=
| Stderr (line : string)
| StderrSkip (name : string)
| Stdout (text : string)
| Get (url authorization : string)
| Exit (code : Z)
| Uncaught.

Definition usage : list event :=
  [ Stderr "Usage: python generate-widget-reference.py <site-url> <username> <app-password>";
    Stderr "   Or set WORDPRESS_API_URL, WORDPRESS_USERNAME, WORDPRESS_PASSWORD env vars";
    Exit 1 ].

(** Credential resolution at the top of the module: [None] when the usage
    branch is taken. *)
Definition credentials (argv : list string) (environ : gmap string string)
    : option (string * string * string) :=
  match argv with
  | [_; a1; a2; a3] => Some (a1, a2, a3)
  | _ =>
      if Py.truthy (JStr (default "" (environ !! "WORDPRESS_API_URL"))) then
        Some (default "" (environ !! "WORDPRESS_API_URL"),
              default "" (environ !! "WORDPRESS_USERNAME"),
              default (default "" (environ !! "WORDPRESS_APP_PASSWORD"))
                      (environ !! "WORDPRESS_PASSWORD"))
      else None
  end.

Definition skip_names : list string :=
  [ "common-base"; "common"; "common-optimized"; "inner-section"; "e-component" ].
Definition skip_prefixes : list string := [ "wp-widget-" ].

(** The loop that builds [practical] from [widgets.items()] *)
Fixpoint practical (widgets : list (string * json)) : list string :=
  match widgets with
  | [] => []
  | (name, w) :: rest =>
      if Py.mem name skip_names then practical rest
      else if existsb (Py.startswith name) skip_prefixes then practical rest
      else name :: practical rest
  end.

Definition category_order : list string :=
  [ "basic"; "general"; "pro-elements"; "theme-elements";
    "theme-elements-single"; "theme-elements-archive"; "link-in-bio" ].

Definition preamble : list string :=
  [ "# Elementor Widget Reference";
    "";
    "Auto-generated from the CommunityTech Widget Registry API on thailand.thesilkworthproject.com.";
    "To regenerate: query `GET /wp-json/communitytech/v1/elementor/widgets/<name>` for each widget.";
    "";
    "## Usage Notes";
    "";
    "- **Colors**: always use `__globals__` references — `" +:+ dquote +:+ "__globals__" +:+ dquote
      +:+ ": {" +:+ dquote +:+ "title_color" +:+ dquote +:+ ": " +:+ dquote
      +:+ "globals/colors?id=primary" +:+ dquote +:+ "}`";
    "- **Typography**: use `__globals__` — `" +:+ dquote +:+ "__globals__" +:+ dquote
      +:+ ": {" +:+ dquote +:+ "typography_typography" +:+ dquote +:+ ": " +:+ dquote
      +:+ "globals/typography?id=primary" +:+ dquote +:+ "}`";
    "- **Advanced tab** (margins, padding, motion effects, custom CSS): identical for all widgets, not shown here.";
    "- **Responsive variants** (`_tablet`, `_mobile`): not shown — append suffix to any control key.";
    "- **Full schema**: `GET /wp-json/communitytech/v1/elementor/widgets/<name>` returns every control.";
    "";
    "---" ].

(** [output_by_cat]: an insertion-ordered dict from a category to the widget
    blocks filed under it. *)
Definition buckets : Type := list (json * list string).

(** [output_by_cat[cat]] when [cat in output_by_cat] *)
Fixpoint bucket (cat : json) (output_by_cat : buckets) : option (list string) :=
  match output_by_cat with
  | [] => None
  | (k, ws) :: rest => if Py.key_eqb k cat then Some ws else bucket cat rest
  end.

(** [if cat not in output_by_cat: output_by_cat[cat] = []] *)
Definition ensure_bucket (cat : json) (output_by_cat : buckets) : buckets :=
  match bucket cat output_by_cat with
  | Some _ => output_by_cat
  | None => output_by_cat ++ [(cat, [])]
  end.

(** [output_by_cat[cat].append(block)] *)
Fixpoint append_block (cat : json) (block : string) (output_by_cat : buckets) : buckets :=
  match output_by_cat with
  | [] => []
  | (k, ws) :: rest =>
      if Py.key_eqb k cat then (k, ws ++ [block]) :: rest
      else (k, ws) :: append_block cat block rest
  end.

(** [cats[0] if cats else "uncategorized"] *)
Definition primary_cat (cats : json) : option json :=
  if Py.truthy cats then
    match cats with
    | JArr (c :: _) => Some c
    | JStr s => match Py.chars s with c :: _ => Some (JStr c) | [] => None end
    | _ => None
    end
  else Some (JStr "uncategorized").

(** The lines of one category section *)
Definition section_lines (heading : string) (blocks : list string) : list string :=
  [""; "## " +:+ heading; ""] ++ flat_map (fun widget_md => [widget_md; ""]) blocks.

(** [for cat in category_order] *)
Fixpoint ordered_sections (order : list string) (output_by_cat : buckets) : list string :=
  match order with
  | [] => []
  | cat :: rest =>
      match bucket (JStr cat) output_by_cat with
      | None => ordered_sections rest output_by_cat
      | Some blocks => section_lines cat blocks ++ ordered_sections rest output_by_cat
      end
  end.

(** [cat in category_order], for any key [cat] *)
Definition in_category_order (cat : json) : bool :=
  match cat with
  | JStr s => Py.mem s category_order
  | _ => false
  end.

Section Program.
Variable repr : json → string.
(** Whether [urllib.request.Request(url, headers=...)] returns a request.  The
    constructor raises [ValueError] for a URL in which it finds no scheme
    ([example.com] in place of [https://example.com]), before anything is
    sent. *)
Variable request_ok : string → bool.
(** The answer to a GET of a URL with an [Authorization] header, decoded by
    [json.loads]; [None] when [urlopen] or the decoding raises.  It is
    consulted only for a URL that [request_ok] accepts. *)
Variable urlopen : string → string → option json.
(** Whether the standard output can encode a text.  [print] raises
    [UnicodeEncodeError] before it writes anything when it cannot (the
    document holds an em dash, which an ASCII or Latin-1 stream refuses).
    The standard error replaces what it cannot encode, so that its [print]
    has no such case. *)
Variable stdout_ok : string → bool.

(** [for cat in sorted(output_by_cat.keys())], after the sort *)
Fixpoint remaining_sections (cats : list json) (output_by_cat : buckets) : list string :=
  match cats with
  | [] => []
  | cat :: rest =>
      if in_category_order cat then remaining_sections rest output_by_cat
      else section_lines (Py.str repr cat) (default [] (bucket cat output_by_cat))
           ++ remaining_sections rest output_by_cat
  end.

(** The list [md]; [None] when [sorted] raises. *)
Definition document (output_by_cat : buckets) : option (list string) :=
  let? cats := Py.sorted_keys (map fst output_by_cat) in
  Some (preamble ++ ordered_sections category_order output_by_cat
                 ++ remaining_sections cats output_by_cat).

(** The body of the [try] of the fetch loop after the request: the new
    [output_by_cat], and whether the body ran to its end. *)
Definition file_widget (name : string) (detail : json) (output_by_cat : buckets)
    : buckets * bool :=
  match
    (let? cats := Py.get_d detail "categories" (JArr [JStr "uncategorized"]) in
     let? cat := primary_cat cats in
     if Py.hashable cat then Some cat else None)
  with
  | None => (output_by_cat, false)
  | Some cat =>
      let output_by_cat := ensure_bucket cat output_by_cat in
      match format_widget repr name detail with
      | None => (output_by_cat, false)
      | Some block => (append_block cat block output_by_cat, true)
      end
  end.

(** One turn of the fetch loop: the [try] and its [except] *)
Definition fetch_one (base auth : string) (total : nat) (name : string)
    (i : nat) (output_by_cat : buckets) : list event * buckets :=
  let url := base +:+ "/" +:+ name in
  if request_ok url then
    match urlopen url auth with
    | None => ([Get url auth; StderrSkip name], output_by_cat)
    | Some detail =>
        let '(output_by_cat, ok) := file_widget name detail output_by_cat in
        if ok then
          if (S i mod 20 =? 0)%nat then
            ([Get url auth;
              Stderr ("  " +:+ Py.str_int (Z.of_nat (S i)) +:+ "/"
                      +:+ Py.str_int (Z.of_nat total) +:+ "...")],
             output_by_cat)
          else ([Get url auth], output_by_cat)
        else ([Get url auth; StderrSkip name], output_by_cat)
    end
  else ([StderrSkip name], output_by_cat).

(** [for i, name in enumerate(sorted(practical))], from index [i] on *)
Fixpoint fetch_loop (base auth : string) (total : nat) (names : list string)
    (i : nat) (output_by_cat : buckets) : list event * buckets :=
  match names with
  | [] => ([], output_by_cat)
  | name :: rest =>
      let '(events, output_by_cat) := fetch_one base auth total name i output_by_cat in
      let '(later, output_by_cat) := fetch_loop base auth total rest (S i) output_by_cat in
      (events ++ later, output_by_cat)
  end.

(** Everything after the list response has been decoded into [data] *)
Definition run_with (base auth : string) (data : json) : list event :=
  match data with
  | JObj d =>
      match Py.dict_get "widgets" d with
      | Some (JObj widgets) =>
          let names := practical widgets in
          let '(events, output_by_cat) :=
            fetch_loop base auth (length names) (Py.sorted_str names) 0 [] in
          Stderr ("Fetching " +:+ Py.str_int (Z.of_nat (length names)) +:+ " widgets...")
          :: events ++
          match document output_by_cat with
          | Some md =>
              if stdout_ok (Py.join newline md) then [Stdout (Py.join newline md)]
              else [Uncaught]
          | None => [Uncaught]
          end
      | _ => [Uncaught]
      end
  | _ => [Uncaught]
  end.

Definition main (argv : list string) (environ : gmap string string) : list event :=
  match credentials argv environ with
  | None => usage
  | Some (site_url, username, password) =>
      let base := Py.rstrip_slash site_url +:+ "/wp-json/communitytech/v1/elementor/widgets" in
      let creds := Py.b64encode (username +:+ ":" +:+ password) in
      let auth := "Basic " +:+ creds in
      if request_ok base then
        Get base auth ::
        match urlopen base auth with
        | None => [Uncaught]
        | Some data => run_with base auth data
        end
      else [Uncaught]
  end.

End Program.

(** ** Notions used in the statements *)

(** The fragment of a select control as the reference describes it: at most
    five keys, then the count of the omitted ones. *)
Definition select_fragment_as_described (key : string) (opt_keys : list string) : string :=
  quoted key +:+ " (" +:+ Py.join ", " (firstn 5 opt_keys)
  +:+ (if (length opt_keys <=? 5)%nat then ""
       else ", +" +:+ Py.str_int (Z.of_nat (length opt_keys) - 5))
  +:+ ")".

(** The reading of C1 in which every select control with a non-empty options
    mapping is rendered with at most five keys. *)
Definition select_shows_at_most_five : Prop :=
  ∀ (repr : json → string) (key : string) (m o : list (string * json)),
    Py.dict_get "type" m = Some (JStr "select") →
    Py.dict_get "options" m = Some (JObj o) →
    non_empty (map fst o) ≠ [] →
    format_control repr key (JObj m)
    = Some (select_fragment_as_described key (non_empty (map fst o))).

(** The reading of C8 in which every control that passes the filter gets a
    parenthetical with something in it. *)
Definition every_fragment_has_parenthetical : Prop :=
  ∀ (repr : json → string) (key : string) (m : list (string * json)),
    should_skip key (JObj m) = Some false →
    ∃ body, body ≠ "" ∧
      format_control repr key (JObj m) = Some (quoted key +:+ " (" +:+ body +:+ ")").

(** A control that passes the filter and whose effective tab is [advanced] *)
Definition is_advanced (section_tabs : gmap string json) (kc : string * json) : bool :=
  match should_skip kc.1 kc.2, effective_tab section_tabs kc.2 with
  | Some false, Some tab => Py.is_str tab "advanced"
  | _, _ => false
  end.

(** The controls that stay when the advanced ones are taken out *)
Definition keep_control (section_tabs : gmap string json) (kc : string * json) : bool :=
  negb (is_advanced section_tabs kc).

(** No section-header control is named [name] *)
Definition no_section_header (name : string) (cs : list (string * json)) : Prop :=
  ∀ ctrl ty, In (name, ctrl) cs → Py.get ctrl "type" = Some ty →
             Py.is_str (default JNull ty) "section" = false.

(** No control of the widget gets the composite key of [(tab, section)] from
    another tab or section. *)
Definition no_key_collision (repr : json → string) (section_tabs : gmap string json)
    (cs : list (string * json)) (tab section : json) : Prop :=
  ∀ key' ctrl' section' tab',
    In (key', ctrl') cs →
    should_skip key' ctrl' = Some false →
    control_section ctrl' = Some section' →
    control_tab section_tabs ctrl' section' = Some tab' →
    group_key repr tab' section' = group_key repr tab section →
    section' = section ∧ tab' = tab.

(** A control that the grouping loop files, with its section and tab *)
Definition filed (section_tabs : gmap string json) (kc : string * json)
    (section tab : json) : Prop :=
  should_skip kc.1 kc.2 = Some false
  ∧ control_section kc.2 = Some section
  ∧ control_tab section_tabs kc.2 section = Some tab.

(** Every group was created by a control of [cs], with its tab and the label
    of its section. *)
Definition created_from (repr : json → string)
    (section_labels section_tabs : gmap string json)
    (cs : list (string * json)) (grouped : list (string * group)) : Prop :=
  ∀ gk g, group_at gk grouped = Some g →
    ∃ kc section tab,
      In kc cs ∧ filed section_tabs kc section tab
      ∧ gk = group_key repr tab section
      ∧ g_tab g = tab
      ∧ Py.lookup_d section_labels section section = Some (g_label g).

(** The reading of C9 in which every control that passes the filter and has
    no [section] ends up in a group of the pseudo-section [other]. *)
Definition sectionless_control_always_grouped : Prop :=
  ∀ (repr : json → string) (cs : list (string * json))
    (grouped : list (string * group)) (key : string) (m : list (string * json)),
    widget_groups repr cs = Some grouped →
    In (key, JObj m) cs →
    should_skip key (JObj m) = Some false →
    Py.dict_get "section" m = None →
    no_section_header "other" cs →
    let tab := default (JStr "content") (Py.dict_get "tab" m) in
    ∃ g, group_at (group_key repr tab (JStr "other")) grouped = Some g
         ∧ In (key, JObj m) (g_controls g)
         ∧ g_label g = JStr "other" ∧ g_tab g = tab.


(** The two exclusion rules on a widget identifier *)
Definition excluded (name : string) : bool :=
  Py.mem name skip_names || existsb (Py.startswith name) skip_prefixes.

(** An [output_by_cat] all of whose categories are strings *)
Definition string_keyed (tbl : list (string * list string)) : buckets :=
  map (fun cw => (JStr cw.1, cw.2)) tbl.

(** [cat in output_by_cat] *)
Definition has_bucket (output_by_cat : buckets) (cat : string) : bool :=
  match bucket (JStr cat) output_by_cat with
  | Some _ => true
  | None => false
  end.

(** The section of a category: its heading and its widget blocks *)
Definition section_of (output_by_cat : buckets) (cat : string) : list string :=
  section_lines cat (default [] (bucket (JStr cat) output_by_cat)).

Definition lex_le (a b : string) : Prop := String.leb a b = true.

(** The reading of C6 for every [output_by_cat] the fetch loop can build:
    after the sections of the preferred order come those of the remaining
    categories, in the lexicographic order of their headings. *)
Definition remaining_sorted_by_heading : Prop :=
  ∀ (repr : json → string) (output_by_cat : buckets) (md : list string),
    document repr output_by_cat = Some md →
    ∃ rest : list json,
      md = preamble ++ ordered_sections category_order output_by_cat
           ++ flat_map (fun cat => section_lines (Py.str repr cat)
                                     (default [] (bucket cat output_by_cat))) rest
      ∧ Permutation rest
          (List.filter (fun cat => negb (in_category_order cat)) (map fst output_by_cat))
      ∧ StronglySorted (fun a b => lex_le (Py.str repr a) (Py.str repr b)) rest.

(** ** Notions used in the further properties *)

(** The composite key under which a turn of the grouping loop files a
    control; [None] when the control is skipped or dropped as advanced, or
    the turn raises. *)
Definition filing_key (repr : json → string) (section_tabs : gmap string json)
    (kc : string * json) : option string :=
  match should_skip kc.1 kc.2 with
  | Some false =>
      let? section := control_section kc.2 in
      let? tab := control_tab section_tabs kc.2 section in
      if Py.is_str tab "advanced" then None
      else Some (group_key repr tab section)
  | _ => None
  end.

(** The controls that are filed under the composite key [gk] *)
Definition files_under (repr : json → string) (section_tabs : gmap string json)
    (gk : string) (kc : string * json) : bool :=
  match filing_key repr section_tabs kc with
  | Some k => String.eqb k gk
  | None => false
  end.

(** [grouped[gk]["controls"]], empty when there is no such group *)
Definition controls_at (gk : string) (grouped : list (string * group))
    : list (string * json) :=
  match group_at gk grouped with
  | Some g => g_controls g
  | None => []
  end.

(** The keys of a dict filled in this order: each key once, at its first
    occurrence. *)
Definition first_seen (keys : list string) : list string :=
  fold_left (fun seen k => if Py.mem k seen then seen else seen ++ [k]) keys [].

(** The requests of a trace, in order *)
Definition is_get (e : event) : bool :=
  match e with
  | Get _ _ => true
  | _ => false
  end.

Definition requests (trace : list event) : list event := List.filter is_get trace.

(** The events that neither end the run nor print the document *)
Definition quiet (e : event) : bool :=
  match e with
  | Get _ _ | Stderr _ | StderrSkip _ => true
  | _ => false
  end.

(** The primary category of a detail as the fetch loop computes it, usable
    as a key of [output_by_cat]; [None] when that raises. *)
Definition widget_category (detail : json) : option json :=
  let? cats := Py.get_d detail "categories" (JArr [JStr "uncategorized"]) in
  let? cat := primary_cat cats in
  if Py.hashable cat then Some cat else None.

(** [output_by_cat[cat]], empty when the category has no bucket *)
Definition blocks (cat : json) (output_by_cat : buckets) : list string :=
  default [] (bucket cat output_by_cat).

(** The detail of the widget [name], when its request is built and
    answered *)
Definition detail_of (request_ok : string → bool)
    (urlopen : string → string → option json) (base auth : string)
    (name : string) : option json :=
  if request_ok (base +:+ "/" +:+ name) then urlopen (base +:+ "/" +:+ name) auth
  else None.

(** What the widget [name] adds to the bucket of [cat]: its block when its
    detail is fetched, its primary category is [cat] and it is formatted. *)
Definition contribution (repr : json → string) (request_ok : string → bool)
    (urlopen : string → string → option json) (base auth : string)
    (cat : json) (name : string) : list string :=
  match detail_of request_ok urlopen base auth name with
  | Some detail =>
      match widget_category detail, format_widget repr name detail with
      | Some c, Some block => if Py.key_eqb c cat then [block] else []
      | _, _ => []
      end
  | None => []
  end.

(** The widgets whose detail request is answered *)
Definition fetched (request_ok : string → bool)
    (urlopen : string → string → option json) (base auth : string)
    (name : string) : bool :=
  match detail_of request_ok urlopen base auth name with
  | Some _ => true
  | None => false
  end.

(** The widgets that a turn of the fetch loop carries to the end of its
    [try]: the detail is fetched, its primary category can be a key of
    [output_by_cat], and the block is formatted. *)
Definition processed (repr : json → string) (request_ok : string → bool)
    (urlopen : string → string → option json) (base auth : string)
    (name : string) : bool :=
  match detail_of request_ok urlopen base auth name with
  | Some detail =>
      match widget_category detail, format_widget repr name detail with
      | Some _, Some _ => true
      | _, _ => false
      end
  | None => false
  end.

(** The names of a worklist with their positions, counted from [i] *)
Fixpoint enumerate_from (i : nat) (names : list string) : list (nat * string) :=
  match names with
  | [] => []
  | name :: rest => (i, name) :: enumerate_from (S i) rest
  end.

(** ** Sample data for the further properties *)

(** A widget with a titled section, a control in it and a control outside
    any section *)
Definition button_controls : list (string * json) :=
  [("section_button", JObj [("type", JStr "section"); ("label", JStr "Button")]);
   ("text", JObj [("type", JStr "text"); ("section", JStr "section_button")]);
   ("_element_id", JObj [("type", JStr "text"); ("tab", JStr "advanced")]);
   ("size", JObj [("type", JStr "select"); ("section", JStr "section_button")]);
   ("note", JObj [("type", JStr "text")])].

Definition button_groups : list (string * group) :=
  [("content|section_button",
    Group (JStr "Button") (JStr "content")
          [("text", JObj [("type", JStr "text"); ("section", JStr "section_button")]);
           ("size", JObj [("type", JStr "select"); ("section", JStr "section_button")])]);
   ("content|other",
    Group (JStr "other") (JStr "content") [("note", JObj [("type", JStr "text")])])].

Definition button_meta : gmap string json * gmap string json :=
  (<["section_button" := JStr "Button"]> ∅, <["section_button" := JStr "content"]> ∅).

(** A site that answers every request with an empty mapping *)
Definition bare_site (url authorization : string) : option json := Some (JObj []).

(** Twenty-one identifiers, already in lexicographic order *)
Definition twenty_one : list string :=
  [ "a01"; "a02"; "a03"; "a04"; "a05"; "a06"; "a07"; "a08"; "a09"; "a10";
    "a11"; "a12"; "a13"; "a14"; "a15"; "a16"; "a17"; "a18"; "a19"; "a20"; "a21" ].

(** A site that has no detail for the widgets [a07] and [a20] *)
Definition patchy_site (url authorization : string) : option json :=
  if Py.endswith url "/a07" || Py.endswith url "/a20" then None
  else Some (JObj []).

(** ** Sample data *)

(** A rendering of floats, lists and dicts for the examples, none of which
    renders such a value. *)
Definition sample_repr (v : json) : string := "<value>".

Definition no_web (url authorization : string) : option json := None.

(** A constructor of requests that accepts every URL, and the one of the
    library on the addresses of the examples: it wants a scheme. *)
Definition any_url (url : string) : bool := true.
Definition with_scheme (url : string) : bool :=
  Py.startswith url "https://" || Py.startswith url "http://".

(** A standard output that encodes every text, as a UTF-8 stream does, and
    one that encodes none. *)
Definition any_text (text : string) : bool := true.
Definition no_text (text : string) : bool := false.

(** A site with two widgets whose categories are numbers, and the buckets
    that the fetch loop fills from it *)
Definition numbered_site (url authorization : string) : option json :=
  if String.eqb url "https://example.com/wp-json/communitytech/v1/elementor/widgets"
  then Some (JObj [("widgets", JObj [("b", JObj []); ("a", JObj [])])])
  else if Py.endswith url "/a" then Some (JObj [("categories", JArr [JInt 10])])
  else Some (JObj [("categories", JArr [JInt 9])]).

Definition numbered : buckets :=
  [(JInt 10, ["### `a` — a"]); (JInt 9, ["### `b` — b"])].

(** Buckets in the order in which a fetch loop created them *)
Definition four_categories : list (string * list string) :=
  [("zeta", ["z1"]); ("general", ["g1"; "g2"]); ("basic", []); ("alpha", ["a1"])].

Definition typography_toggle : json := JObj [("type", JStr "popover_toggle")].

Definition six_select : list (string * json) :=
  [("type", JStr "select");
   ("options", JObj (map (fun k => (k, JStr "label")) ["a"; "b"; "c"; "d"; "e"; "f"]))].

Definition default_only_select : list (string * json) :=
  [("type", JStr "select"); ("options", JObj [("", JStr "Default")])].

Definition custom_css_controls : list (string * json) :=
  [("custom_css", JObj [("type", JStr "code"); ("tab", JStr "advanced")])].


Definition eight_options : list (string * json) :=
  map (fun k => (k, JStr "label")) ["xs"; "s"; "m"; "l"; "xl"; "xxl"; "3xl"; "4xl"].

Definition size_select : list (string * json) :=
  [("type", JStr "select"); ("options", JObj eight_options)].

Definition zero_slider : list (string * json) :=
  [("type", JStr "slider");
   ("default", JObj [("size", JInt 0); ("unit", JStr "px")])].

Definition align_choose : list (string * json) :=
  [("type", JStr "choose");
   ("options", JObj [("left", JStr "Left"); ("right", JStr "Right")])].

Definition align_select : list (string * json) :=
  [("type", JStr "select");
   ("options", JObj [("", JStr "Default"); ("left", JStr "Left"); ("right", JStr "Right")])].

(** A site with the two widgets [heading] and [common-base] *)
Definition heading_detail : json :=
  JObj [("title", JStr "Heading"); ("categories", JArr [JStr "basic"]);
        ("controls",
         JObj [("section_title",
                JObj [("type", JStr "section"); ("label", JStr "Title");
                      ("tab", JStr "content")]);
               ("title",
                JObj [("type", JStr "text"); ("section", JStr "section_title")])])].

Definition example_site (url authorization : string) : option json :=
  if String.eqb url "https://example.com/wp-json/communitytech/v1/elementor/widgets"
  then Some (JObj [("widgets", JObj [("heading", JObj []); ("common-base", JObj [])])])
  else if String.eqb url
            "https://example.com/wp-json/communitytech/v1/elementor/widgets/heading"
  then Some heading_detail
  else None.

(** A widget whose controls are all internal or on the advanced tab *)
Definition spacer_controls : list (string * json) :=
  [("section_effects", JObj [("type", JStr "section"); ("tab", JStr "advanced")]);
   ("_margin", JObj [("type", JStr "dimensions"); ("section", JStr "section_effects")]);
   ("z_index", JObj [("type", JStr "number"); ("section", JStr "section_effects")]);
   ("custom_css", JObj [("type", JStr "code"); ("tab", JStr "advanced")])].

Definition spacer : json :=
  JObj [("title", JStr "Spacer"); ("keywords", JArr [JStr "space"]);
        ("controls", JObj spacer_controls)].

(** A widget with one control outside any section *)
Definition anchor_controls : list (string * json) :=
  [("section_anchor", JObj [("type", JStr "section"); ("label", JStr "Anchor")]);
   ("anchor", JObj [("type", JStr "text"); ("section", JStr "section_anchor")]);
   ("note", JObj [("type", JStr "text")])].

(** * Properties *)

(** ** Text *)

Lemma append_assoc (a b c : string) : (a +:+ b) +:+ c = a +:+ (b +:+ c).
Proof.
  induction a as [|x a IH]; [reflexivity|].
  change (String x ((a +:+ b) +:+ c) = String x (a +:+ (b +:+ c))).
  now rewrite IH.
Qed.

Lemma append_eq_nil (a b : string) : a +:+ b = "" → a = "" ∧ b = "".
Proof. destruct a; [intros H; split; [reflexivity|exact H] | discriminate]. Qed.

(** ** The control filter *)

Lemma skip_contains_loop_toggle (patterns : list string) (key : string) :
  (∃ p, In p patterns ∧ Py.contains p key = true) →
  Py.endswith key "_typography" || Py.endswith key "_type" = true →
  skip_contains_loop patterns key = Some false.
Proof.
  intros [p [Hin Hp]] Hend.
  induction patterns as [|q rest IH]; [destruct Hin|].
  cbn [skip_contains_loop].
  destruct (Py.contains q key) eqn:Hq.
  - now rewrite Hend.
  - destruct Hin as [-> | Hin]; [congruence | auto].
Qed.

(** C3. A key that holds one of the SKIP_CONTAINS patterns and ends with
    [_typography] or [_type] is kept, when no earlier rule of [should_skip]
    catches it: it does not start with an underscore, its type is not in
    SKIP_TYPES, it ends with no responsive suffix and it is not in
    SKIP_EXACT. *)
Theorem should_skip_keeps_toggle (key : string) (ctrl : json) (ty : option json) :
  Py.startswith key "_" = false →
  Py.get ctrl "type" = Some ty →
  Py.in_set (default JNull ty) SKIP_TYPES = Some false →
  existsb (Py.endswith key) SKIP_SUFFIXES = false →
  Py.mem key SKIP_EXACT = false →
  (∃ p, In p SKIP_CONTAINS ∧ Py.contains p key = true) →
  Py.endswith key "_typography" = true ∨ Py.endswith key "_type" = true →
  should_skip key ctrl = Some false.
Proof.
  intros Hstart Hty Hin Hsuf Hexact Hpat Hend.
  unfold should_skip.
  rewrite Hstart, Hty. cbn [obind]. rewrite Hin. cbn [obind].
  rewrite Hsuf, Hexact.
  rewrite (skip_contains_loop_toggle SKIP_CONTAINS key Hpat); [reflexivity|].
  destruct Hend as [-> | ->]; [reflexivity | apply orb_true_r].
Qed.

(** C4. A key that starts with an underscore is skipped, whatever the
    control is and whatever the later rules would say. *)
Theorem should_skip_underscore (key : string) (ctrl : json) :
  Py.startswith key "_" = true →
  should_skip key ctrl = Some true.
Proof. intros H. unfold should_skip. now rewrite H. Qed.

(** ** The control formatter *)

(** C1, as stated, fails: with six option keys all six are shown. *)
Lemma select_six_keys_all_shown :
  format_control sample_repr "align" (JObj six_select)
  = Some "`align` (a, b, c, d, e, f)"
  ∧ ¬ select_shows_at_most_five.
Proof.
  split; [reflexivity|]. intros H.
  specialize (H sample_repr "align" six_select
                (map (fun k => (k, JStr "label")) ["a"; "b"; "c"; "d"; "e"; "f"])
                eq_refl eq_refl).
  vm_compute in H.
  specialize (H ltac:(discriminate)). discriminate H.
Qed.

(** C1, amended.  A select control whose options mapping has a non-empty key
    shows all its non-empty keys when there are at most six, and otherwise
    the first five followed by [+N], N being the number of keys left out;
    with eight keys that is the first five and [+3]. *)
Theorem select_fragment (repr : json → string) (key : string)
    (m o : list (string * json)) :
  Py.dict_get "type" m = Some (JStr "select") →
  Py.dict_get "options" m = Some (JObj o) →
  non_empty (map fst o) ≠ [] →
  let opt_keys := non_empty (map fst o) in
  ((length opt_keys ≤ 6)%nat →
     format_control repr key (JObj m)
     = Some (quoted key +:+ " (" +:+ Py.join ", " opt_keys +:+ ")"))
  ∧ ((6 < length opt_keys)%nat →
     format_control repr key (JObj m)
     = Some (quoted key +:+ " (" +:+ Py.join ", " (firstn 5 opt_keys) +:+ ", +"
             +:+ Py.str_int (Z.of_nat (length opt_keys) - 5) +:+ ")"))
  ∧ (length opt_keys = 8%nat →
     format_control repr key (JObj m)
     = Some (quoted key +:+ " (" +:+ Py.join ", " (firstn 5 opt_keys) +:+ ", +3)")).
Proof.
  intros Hty Hopt Hne opt_keys.
  assert (Hrun : format_control repr key (JObj m)
                 = if (length opt_keys <=? 6)%nat
                   then Some (quoted key +:+ " (" +:+ Py.join ", " opt_keys +:+ ")")
                   else Some (quoted key +:+ " (" +:+ Py.join ", " (firstn 5 opt_keys)
                              +:+ ", +" +:+ Py.str_int (Z.of_nat (length opt_keys) - 5)
                              +:+ ")")).
  { unfold format_control, Py.get_d, Py.get. cbn [obind].
    rewrite Hty, Hopt. cbn [default from_option id Py.is_list Py.is_str Py.keys obind].
    change (String.eqb "select" "select") with true.
    assert (Ht : Py.truthy (JObj o) = true).
    { destruct o; [now elim Hne | reflexivity]. }
    rewrite Ht. cbn [andb obind]. fold opt_keys.
    destruct opt_keys eqn:E; [now elim Hne | reflexivity]. }
  split; [|split]; intros Hlen; rewrite Hrun.
  - now rewrite (proj2 (Nat.leb_le _ _) Hlen).
  - assert ((length opt_keys <=? 6)%nat = false) as -> by (apply Nat.leb_gt; lia).
    reflexivity.
  - rewrite Hlen. reflexivity.
Qed.

(** C10. A slider whose default mapping has no [size], or a [size] of zero,
    renders as the quoted key and [(slider)], whatever else the default
    holds. *)
Theorem slider_without_size (repr : json → string) (key : string)
    (m d : list (string * json)) :
  Py.dict_get "type" m = Some (JStr "slider") →
  Py.dict_get "default" m = Some (JObj d) →
  Py.dict_get "size" d = None ∨ Py.dict_get "size" d = Some (JInt 0)
  ∨ (∃ q, Py.dict_get "size" d = Some (JFloat q) ∧ (q == 0)%Q) →
  format_control repr key (JObj m) = Some (quoted key +:+ " (slider)").
Proof.
  intros Hty Hdef Hsize.
  unfold format_control, Py.get_d, Py.get. cbn [obind].
  rewrite Hty, Hdef. cbn [default from_option id].
  destruct (Py.is_list _); [reflexivity|].
  cbn [Py.is_str Py.is_dict Py.field_d].
  change (String.eqb "slider" "select") with false.
  change (String.eqb "slider" "choose") with false.
  change (String.eqb "slider" "repeater") with false.
  change (String.eqb "slider" "switcher") with false.
  change (String.eqb "slider" "color") with false.
  change (String.eqb "slider" "slider") with true.
  cbn [andb].
  destruct Hsize as [-> | [-> | [q [-> Hq]]]]; cbn [default from_option id Py.truthy];
    rewrite ?andb_false_r; try reflexivity.
  apply Qeq_bool_iff in Hq. rewrite Hq, andb_false_r. reflexivity.
Qed.

Lemma join_not_empty (sep : string) (l : list string) :
  l ≠ [] → Forall (fun k => k ≠ "") l → Py.join sep l ≠ "".
Proof.
  intros Hl Hall. destruct l as [|x l]; [now elim Hl|].
  inversion_clear Hall as [|? ? Hx _].
  unfold Py.join. cbn [String.concat].
  destruct l; [exact Hx|].
  intros H. apply append_eq_nil in H. now destruct H.
Qed.

Lemma non_empty_Forall (keys : list string) :
  Forall (fun k => k ≠ "") (non_empty keys).
Proof.
  unfold non_empty. induction keys as [|k keys IH]; [constructor|].
  cbn [List.filter]. destruct (Py.truthy (JStr k)) eqn:Hk; [|exact IH].
  constructor; [|exact IH]. intros ->. discriminate Hk.
Qed.

Lemma is_str_eq (v : json) (lit : string) : Py.is_str v lit = true → v = JStr lit.
Proof.
  destruct v; try discriminate. cbn [Py.is_str]. intros H.
  now apply String.eqb_eq in H as ->.
Qed.

Lemma join_empty (l : list string) :
  Py.join ", " l = "" ↔ l = [] ∨ l = [""].
Proof.
  split.
  - destruct l as [|x [|y l]]; [now left | |].
    + unfold Py.join. cbn [String.concat]. intros ->. now right.
    + unfold Py.join. cbn [String.concat]. intros H.
      apply append_eq_nil in H as [_ H]. apply append_eq_nil in H as [H _].
      discriminate H.
  - intros [-> | ->]; reflexivity.
Qed.

(** What remains to show of a branch of [format_control] whose parenthetical
    is not empty and whose type is a known text other than [choose] *)
Ltac labelled :=
  split; [reflexivity || (now rewrite !append_assoc)|];
  split;
  [ intros o Hc; vm_compute in Hc; discriminate Hc
  | split;
    [ intros Hb; repeat (apply append_eq_nil in Hb as [? Hb]); discriminate
    | intros [Hs | [Hc _]];
      [ vm_compute in Hs; discriminate Hs | vm_compute in Hc; discriminate Hc ] ] ].

(** A branch of [format_control] that appends a fixed label *)
Ltac fixed_label ctype lit label :=
  let H := fresh "Hlit" in
  destruct (Py.is_str ctype lit) eqn:H;
  [apply is_str_eq in H; subst ctype; exists label; labelled|].

(** C8, as stated, fails: a select control whose only option key is the empty
    string passes the filter and is rendered as the bare quoted key. *)
Lemma select_without_named_option_is_bare :
  should_skip "align" (JObj default_only_select) = Some false
  ∧ format_control sample_repr "align" (JObj default_only_select) = Some "`align`"
  ∧ ¬ every_fragment_has_parenthetical.
Proof.
  split; [reflexivity|]. split; [reflexivity|]. intros H.
  destruct (H sample_repr "align" default_only_select eq_refl) as [body [_ Hbody]].
  vm_compute in Hbody. discriminate Hbody.
Qed.

(** C8, amended.  Every control descriptor gets the quoted key followed by a
    parenthetical, except a select control whose truthy [options] is neither
    a list nor a mapping with a non-empty key.  For a choose control with an
    options mapping, the keys of the mapping stand between the parentheses,
    separated by a comma and a space.  What stands between the parentheses
    is empty in two cases only: the type itself renders as the empty text,
    or the control is a choose control whose options mapping has no key, or
    the empty key alone. *)
Theorem format_control_parenthetical (repr : json → string) (key : string)
    (m : list (string * json)) :
  let ctype := default (JStr "unknown") (Py.dict_get "type" m) in
  let options := default (JObj []) (Py.dict_get "options" m) in
  (Py.is_str ctype "select" = true → Py.truthy options = true →
   Py.is_list options = true
   ∨ ∃ o, options = JObj o ∧ non_empty (map fst o) ≠ []) →
  ∃ body,
    format_control repr key (JObj m) = Some (quoted key +:+ " (" +:+ body +:+ ")")
    ∧ (∀ o, Py.is_str ctype "choose" = true → options = JObj o →
            body = Py.join ", " (map fst o))
    ∧ (body = "" ↔
       Py.str repr ctype = ""
       ∨ (Py.is_str ctype "choose" = true
          ∧ ∃ o, options = JObj o ∧ (map fst o = [] ∨ map fst o = [""]))).
Proof.
  intros ctype options Hsel.
  unfold format_control, Py.get_d, Py.get. cbn [obind].
  fold ctype options.
  set (default_ := default (JStr "") (Py.dict_get "default" m)).
  clearbody ctype options default_.
  assert (Hplain :
             Py.is_str ctype "choose" = false ∨ Py.is_dict options = false →
             (∀ o, Py.is_str ctype "choose" = true → options = JObj o →
                   Py.str repr ctype = Py.join ", " (map fst o))
             ∧ (Py.str repr ctype = "" ↔
                Py.str repr ctype = ""
                ∨ (Py.is_str ctype "choose" = true
                   ∧ ∃ o, options = JObj o ∧ (map fst o = [] ∨ map fst o = [""])))).
  { intros Hno. split.
    - intros o Hc ->. destruct Hno as [Hno|Hno]; [congruence | discriminate Hno].
    - split; [now left|]. intros [H | [Hc [o [-> _]]]]; [exact H|].
      destruct Hno as [Hno|Hno]; [congruence | discriminate Hno]. }
  destruct (Py.is_list options) eqn:Hlist.
  { exists (Py.str repr ctype). split; [reflexivity|]. apply Hplain. right.
    now destruct options. }
  destruct (Py.is_str ctype "select") eqn:Hselect.
  { apply is_str_eq in Hselect. subst ctype.
    destruct (Py.truthy options) eqn:Htruthy; cbn [andb].
    - destruct (Hsel eq_refl eq_refl) as [Habs | [o [Ho Hne]]]; [discriminate|].
      rewrite Ho. cbn [Py.keys obind].
      pose proof (non_empty_Forall (map fst o)) as Hall.
      destruct (non_empty (map fst o)) as [|k ks] eqn:E; [now elim Hne|].
      destruct (length (k :: ks) <=? 6)%nat.
      + exists (Py.join ", " (k :: ks)). split; [reflexivity|]. split.
        * intros o' Hc. vm_compute in Hc. discriminate Hc.
        * split; [intros Hb; now apply join_not_empty in Hb|].
          intros [Hs | [Hc _]]; [vm_compute in Hs; discriminate Hs
                                | vm_compute in Hc; discriminate Hc].
      + exists (Py.join ", " (firstn 5 (k :: ks)) +:+ ", +"
                +:+ Py.str_int (Z.of_nat (length (k :: ks)) - 5)).
        split; [now rewrite !append_assoc|]. split.
        * intros o' Hc. vm_compute in Hc. discriminate Hc.
        * split; [intros Hb; apply append_eq_nil in Hb as [_ Hb]; discriminate Hb|].
          intros [Hs | [Hc _]]; [vm_compute in Hs; discriminate Hs
                                | vm_compute in Hc; discriminate Hc].
    - exists "select". labelled. }
  cbn [andb].
  destruct (Py.is_str ctype "choose") eqn:Hchoose.
  { apply is_str_eq in Hchoose. subst ctype.
    destruct (Py.is_dict options) eqn:Hdict; cbn [andb].
    - destruct options as [| | | | | |o]; try discriminate.
      cbn [Py.keys obind]. exists (Py.join ", " (map fst o)).
      split; [reflexivity|]. split.
      + now intros o' _ [= <-].
      + rewrite join_empty. split.
        * intros H. right. split; [reflexivity|]. now exists o.
        * intros [Hs | [_ [o' [[= <-] H]]]]; [discriminate Hs | exact H].
    - exists "choose". split; [reflexivity|]. split.
      + intros o _ ->. discriminate Hdict.
      + split; [discriminate|].
        intros [Hs | [_ [o [-> _]]]]; [discriminate Hs | discriminate Hdict]. }
  cbn [andb].
  fixed_label ctype "repeater" "repeater".
  fixed_label ctype "switcher" "on/off".
  fixed_label ctype "color" "color".
  destruct (Py.is_str ctype "slider") eqn:Hslider.
  { apply is_str_eq in Hslider. subst ctype.
    destruct (_ && _ && _).
    - exists ("slider, default: " +:+ Py.str repr (Py.field_d default_ "size" JNull)
              +:+ Py.str repr (Py.field_d default_ "unit" (JStr ""))).
      labelled.
    - exists "slider". labelled. }
  fixed_label ctype "dimensions" "dimensions".
  fixed_label ctype "media" "media".
  fixed_label ctype "gallery" "gallery".
  fixed_label ctype "icons" "icons".
  fixed_label ctype "url" "url".
  fixed_label ctype "wysiwyg" "wysiwyg".
  destruct (_ || _ || _) eqn:Hkind.
  - destruct default_ as [| | | |d| |];
      try (exists (Py.str repr ctype); split; [reflexivity | apply Hplain; now left]).
    destruct (_ && _).
    + exists (Py.str repr ctype +:+ ", default: " +:+ dquote +:+ d +:+ dquote).
      split; [now rewrite !append_assoc|]. split.
      * intros o Hc. congruence.
      * split; [intros Hb; apply append_eq_nil in Hb as [_ Hb]; discriminate Hb|].
        intros [Hs | [Hc _]]; [|congruence].
        apply orb_true_iff in Hkind as [Hkind | Hkind];
          [apply orb_true_iff in Hkind as [Hkind | Hkind]|];
          apply is_str_eq in Hkind; subst ctype; discriminate Hs.
    + exists (Py.str repr ctype). split; [reflexivity | apply Hplain; now left].
  - exists (Py.str repr ctype). split; [reflexivity | apply Hplain; now left].
Qed.

(** ** Grouping and the widget block *)

Lemma is_advanced_inv (section_tabs : gmap string json) (key : string) (ctrl : json) :
  is_advanced section_tabs (key, ctrl) = true →
  should_skip key ctrl = Some false
  ∧ ∃ section tab,
      control_section ctrl = Some section
      ∧ control_tab section_tabs ctrl section = Some tab
      ∧ Py.is_str tab "advanced" = true.
Proof.
  unfold is_advanced, effective_tab. cbn [fst snd].
  destruct (should_skip key ctrl) as [[|]|]; try discriminate.
  destruct (control_section ctrl) as [section|]; [|discriminate]. cbn [obind].
  destruct (control_tab section_tabs ctrl section) as [tab|] eqn:Htab; [|discriminate].
  intros H. split; [reflexivity|]. now exists section, tab.
Qed.

Lemma should_skip_false_not_section (key : string) (ctrl : json) :
  should_skip key ctrl = Some false →
  ∃ ty, Py.get ctrl "type" = Some ty
        ∧ Py.is_str (default JNull ty) "section" = false.
Proof.
  unfold should_skip.
  destruct (Py.startswith key "_"); [discriminate|].
  destruct (Py.get ctrl "type") as [ty|]; [|discriminate]. cbn [obind].
  intros H. exists ty. split; [reflexivity|].
  destruct (default JNull ty) as [| | | |s| |]; try reflexivity.
  cbn [Py.in_set Py.hashable obind] in H.
  destruct (Py.mem s SKIP_TYPES) eqn:Hmem; [discriminate|].
  cbn [Py.is_str]. destruct (String.eqb s "section") eqn:E; [|reflexivity].
  apply String.eqb_eq in E. subst s. discriminate Hmem.
Qed.

Section Widget.
Variable repr : json → string.
Variables section_labels section_tabs : gmap string json.

(** A turn of the grouping loop leaves [grouped] as it is on a control that
    is skipped or advanced. *)
Lemma file_control_dropped (kc : string * json) (grouped : list (string * group)) :
  should_skip kc.1 kc.2 = Some true ∨ is_advanced section_tabs kc = true →
  file_control repr section_labels section_tabs kc grouped = Some grouped.
Proof.
  destruct kc as [key ctrl]. intros [Hskip | Hadv]; cbn [file_control].
  - cbn [fst snd] in Hskip. now rewrite Hskip.
  - apply is_advanced_inv in Hadv as [Hskip [section [tab [Hs [Ht Ha]]]]].
    rewrite Hskip. cbn [obind]. rewrite Hs. cbn [obind]. rewrite Ht. cbn [obind].
    now rewrite Ha.
Qed.

(** On any other control it adds the control to the group of its key. *)
Lemma file_control_filed (kc : string * json) (section tab : json)
    (grouped : list (string * group)) :
  filed section_tabs kc section tab →
  Py.is_str tab "advanced" = false →
  file_control repr section_labels section_tabs kc grouped
  = let? label := Py.lookup_d section_labels section section in
    Some (add_to_group (group_key repr tab section) label tab kc grouped).
Proof.
  destruct kc as [key ctrl]. intros [Hskip [Hs Ht]] Ha.
  cbn [fst snd] in Hskip, Hs, Ht. cbn [file_control].
  rewrite Hskip. cbn [obind]. rewrite Hs. cbn [obind]. rewrite Ht. cbn [obind].
  now rewrite Ha.
Qed.

Lemma file_control_cases (kc : string * json) (grouped grouped' : list (string * group)) :
  file_control repr section_labels section_tabs kc grouped = Some grouped' →
  grouped' = grouped
  ∨ ∃ section tab label,
      filed section_tabs kc section tab
      ∧ Py.is_str tab "advanced" = false
      ∧ Py.lookup_d section_labels section section = Some label
      ∧ grouped' = add_to_group (group_key repr tab section) label tab kc grouped.
Proof.
  destruct kc as [key ctrl]. cbn [file_control]. unfold filed. cbn [fst snd].
  destruct (should_skip key ctrl) as [[|]|]; cbn [obind];
    [intros [= <-]; now left | | discriminate].
  destruct (control_section ctrl) as [section|]; cbn [obind]; [|discriminate].
  destruct (control_tab section_tabs ctrl section) as [tab|] eqn:Ht; cbn [obind];
    [|discriminate].
  destruct (Py.is_str tab "advanced") eqn:Ha; [intros [= <-]; now left|].
  destruct (Py.lookup_d section_labels section section) as [label|] eqn:Hl;
    cbn [obind]; [|discriminate].
  intros [= <-]. right. exists section, tab, label. auto.
Qed.

Lemma group_controls_dropped (cs : list (string * json))
    (grouped : list (string * group)) :
  Forall (fun kc => should_skip kc.1 kc.2 = Some true
                    ∨ is_advanced section_tabs kc = true) cs →
  group_controls repr section_labels section_tabs cs grouped = Some grouped.
Proof.
  induction 1 as [|kc cs Hkc _ IH]; [reflexivity|].
  cbn [group_controls]. now rewrite (file_control_dropped kc grouped Hkc).
Qed.

Lemma group_controls_keep (cs : list (string * json))
    (grouped : list (string * group)) :
  group_controls repr section_labels section_tabs
                 (List.filter (keep_control section_tabs) cs) grouped
  = group_controls repr section_labels section_tabs cs grouped.
Proof.
  revert grouped. induction cs as [|kc cs IH]; intros grouped; [reflexivity|].
  cbn [List.filter]. unfold keep_control at 1.
  destruct (is_advanced section_tabs kc) eqn:Hadv; cbn [negb group_controls].
  - rewrite (file_control_dropped kc grouped (or_intror Hadv)). apply IH.
  - destruct (file_control repr section_labels section_tabs kc grouped);
      [apply IH | reflexivity].
Qed.

Lemma collect_sections_keep (cs : list (string * json))
    (labels tabs : gmap string json) :
  collect_sections (List.filter (keep_control section_tabs) cs) labels tabs
  = collect_sections cs labels tabs.
Proof.
  revert labels tabs. induction cs as [|[key ctrl] cs IH]; intros labels tabs;
    [reflexivity|].
  cbn [List.filter]. unfold keep_control at 1.
  destruct (is_advanced section_tabs (key, ctrl)) eqn:Hadv; cbn [negb].
  - apply is_advanced_inv in Hadv as [Hskip _].
    apply should_skip_false_not_section in Hskip as [ty [Hty Hsec]].
    cbn [collect_sections]. rewrite Hty. cbn [obind]. rewrite Hsec. apply IH.
  - cbn [collect_sections].
    destruct (Py.get ctrl "type") as [ty|]; cbn [obind]; [|reflexivity].
    destruct (Py.is_str (default JNull ty) "section"); [|apply IH].
    destruct (Py.get_d ctrl "label" (JStr key)); cbn [obind]; [|reflexivity].
    destruct (Py.get_d ctrl "tab" (JStr "content")); cbn [obind]; [|reflexivity].
    apply IH.
Qed.

(** [grouped[gk]] after one more control has been added *)
Lemma group_at_add (gk gk' : string) (label tab : json) (entry : string * json)
    (grouped : list (string * group)) :
  group_at gk' (add_to_group gk label tab entry grouped)
  = if String.eqb gk gk' then
      Some match group_at gk grouped with
           | Some g => Group (g_label g) (g_tab g) (g_controls g ++ [entry])
           | None => Group label tab [entry]
           end
    else group_at gk' grouped.
Proof.
  induction grouped as [|[k g] grouped IH]; cbn [add_to_group group_at].
  - reflexivity.
  - destruct (String.eqb_spec k gk) as [->|Hk]; cbn [group_at].
    + destruct (String.eqb gk gk'); reflexivity.
    + rewrite IH. destruct (String.eqb_spec k gk') as [->|Hk'].
      * destruct (String.eqb_spec gk gk') as [->|]; [now elim Hk | reflexivity].
      * reflexivity.
Qed.

Lemma group_controls_created (all cs : list (string * json))
    (acc grouped : list (string * group)) :
  group_controls repr section_labels section_tabs cs acc = Some grouped →
  incl cs all →
  created_from repr section_labels section_tabs all acc →
  created_from repr section_labels section_tabs all grouped.
Proof.
  revert acc. induction cs as [|kc cs IH]; intros acc Hrun Hincl Hacc.
  - injection Hrun as <-. exact Hacc.
  - assert (Hincl' : incl cs all) by (intros x Hx; apply Hincl; now right).
    cbn [group_controls] in Hrun.
    destruct (file_control repr section_labels section_tabs kc acc) as [acc'|]
      eqn:Hstep; [|discriminate].
    cbn [obind] in Hrun. apply (IH _ Hrun Hincl').
    apply file_control_cases in Hstep
      as [-> | [section [tab [label [Hfiled [_ [Hlabel ->]]]]]]]; [exact Hacc|].
    intros gk g. rewrite group_at_add.
    destruct (String.eqb_spec (group_key repr tab section) gk) as [<-|_]; [|apply Hacc].
    destruct (group_at (group_key repr tab section) acc) as [g0|] eqn:Hg0.
    + intros [= <-]. cbn [g_label g_tab]. apply (Hacc _ _ Hg0).
    + intros [= <-]. cbn [g_label g_tab].
      exists kc, section, tab. split; [apply Hincl; now left|]. auto.
Qed.

(** A group, once there, keeps its label and tab and only gains controls. *)
Lemma group_controls_persist (cs : list (string * json))
    (acc grouped : list (string * group)) (gk : string) (g : group) :
  group_controls repr section_labels section_tabs cs acc = Some grouped →
  group_at gk acc = Some g →
  ∃ g', group_at gk grouped = Some g'
        ∧ g_label g' = g_label g ∧ g_tab g' = g_tab g
        ∧ ∀ entry, In entry (g_controls g) → In entry (g_controls g').
Proof.
  revert acc g. induction cs as [|kc cs IH]; intros acc g Hrun Hg.
  - injection Hrun as <-. exists g. auto.
  - cbn [group_controls] in Hrun.
    destruct (file_control repr section_labels section_tabs kc acc) as [acc'|]
      eqn:Hstep; [|discriminate].
    cbn [obind] in Hrun.
    apply file_control_cases in Hstep
      as [-> | [section [tab [label [_ [_ [_ ->]]]]]]]; [eauto|].
    pose proof (group_at_add (group_key repr tab section) gk label tab kc acc)
      as Hadd.
    destruct (String.eqb_spec (group_key repr tab section) gk) as [<-|_].
    + rewrite Hg in Hadd.
      destruct (IH _ _ Hrun Hadd) as [g' [Hg' [Hl [Ht Hc]]]].
      exists g'. repeat split; try assumption.
      intros entry Hentry. apply Hc. cbn [g_controls]. apply in_or_app. now left.
    + rewrite Hg in Hadd. eauto.
Qed.

(** Only controls that pass the filter and are not advanced are in a group. *)
Lemma group_controls_members (cs : list (string * json))
    (acc grouped : list (string * group)) :
  group_controls repr section_labels section_tabs cs acc = Some grouped →
  (∀ gk g kc, group_at gk acc = Some g → In kc (g_controls g) →
              should_skip kc.1 kc.2 = Some false
              ∧ is_advanced section_tabs kc = false) →
  ∀ gk g kc, group_at gk grouped = Some g → In kc (g_controls g) →
             should_skip kc.1 kc.2 = Some false
             ∧ is_advanced section_tabs kc = false.
Proof.
  revert acc. induction cs as [|kc0 cs IH]; intros acc Hrun Hacc.
  - injection Hrun as <-. exact Hacc.
  - cbn [group_controls] in Hrun.
    destruct (file_control repr section_labels section_tabs kc0 acc) as [acc'|]
      eqn:Hstep; [|discriminate].
    cbn [obind] in Hrun. apply (IH _ Hrun).
    apply file_control_cases in Hstep
      as [-> | [section [tab [label [[Hskip [Hs Ht]] [Ha [_ ->]]]]]]]; [exact Hacc|].
    assert (Hkc0 : should_skip kc0.1 kc0.2 = Some false
                   ∧ is_advanced section_tabs kc0 = false).
    { split; [exact Hskip|]. unfold is_advanced, effective_tab.
      rewrite Hskip, Hs. cbn [obind]. now rewrite Ht. }
    intros gk g kc. rewrite group_at_add.
    destruct (String.eqb_spec (group_key repr tab section) gk) as [<-|_];
      [|apply Hacc].
    destruct (group_at (group_key repr tab section) acc) as [g0|] eqn:Hg0;
      intros [= <-]; cbn [g_controls]; intros Hin.
    + apply in_app_or in Hin as [Hin | [<- | []]]; [|exact Hkc0].
      exact (Hacc _ _ _ Hg0 Hin).
    + destruct Hin as [<- | []]. exact Hkc0.
Qed.

Lemma group_controls_app (pre post : list (string * json))
    (acc grouped : list (string * group)) :
  group_controls repr section_labels section_tabs (pre ++ post) acc = Some grouped →
  ∃ mid, group_controls repr section_labels section_tabs pre acc = Some mid
         ∧ group_controls repr section_labels section_tabs post mid = Some grouped.
Proof.
  revert acc. induction pre as [|kc pre IH]; intros acc Hrun.
  - exists acc. now split.
  - cbn [app group_controls] in Hrun |- *.
    destruct (file_control repr section_labels section_tabs kc acc);
      cbn [obind] in Hrun |- *; [eauto | discriminate].
Qed.

End Widget.

Lemma header_lines_shape (repr : json → string) (name : string) (detail : json)
    (header : list string) :
  header_lines repr name detail = Some header →
  ∃ title keywords,
    Py.get_d detail "title" (JStr name) = Some title
    ∧ Py.get_d detail "keywords" (JArr []) = Some keywords
    ∧ let heading := "### `" +:+ name +:+ "` — " +:+ Py.str repr title in
      if Py.truthy keywords
      then ∃ kw, Py.join_value ", " keywords = Some kw
                 ∧ header = [heading; "*" +:+ kw +:+ "*"]
      else header = [heading].
Proof.
  unfold header_lines.
  destruct (Py.get_d detail "title" (JStr name)) as [title|]; [|discriminate].
  destruct (Py.get_d detail "keywords" (JArr [])) as [keywords|]; [|discriminate].
  cbn [obind]. intros H. exists title, keywords. do 2 (split; [reflexivity|]).
  cbv zeta. destruct (Py.truthy keywords).
  - destruct (Py.join_value ", " keywords) as [kw|]; [|discriminate].
    cbn [obind] in H. exists kw. split; [reflexivity | congruence].
  - congruence.
Qed.

(** C5. A widget all of whose controls are skipped by the filter or have the
    effective tab [advanced] is rendered as its heading, with the keyword
    line when there are keywords, and no bullet line.  In general a control
    whose effective tab is [advanced] adds nothing to a block: the block of
    the widget without these controls is the same, and the groups from which
    the bullet lines are made hold only controls that pass the filter and
    are not advanced. *)
Theorem advanced_controls_are_omitted (repr : json → string) (name : string)
    (detail : json) (cs : list (string * json))
    (meta : gmap string json * gmap string json) (header : list string) :
  header_lines repr name detail = Some header →
  Py.get_d detail "controls" (JObj []) = Some (JObj cs) →
  collect_sections cs ∅ ∅ = Some meta →
  (Forall (fun kc => should_skip kc.1 kc.2 = Some true
                     ∨ is_advanced meta.2 kc = true) cs →
   format_widget repr name detail = Some (Py.join newline header)
   ∧ ∃ title keywords,
       Py.get_d detail "title" (JStr name) = Some title
       ∧ Py.get_d detail "keywords" (JArr []) = Some keywords
       ∧ let heading := "### `" +:+ name +:+ "` — " +:+ Py.str repr title in
         if Py.truthy keywords
         then ∃ kw, Py.join_value ", " keywords = Some kw
                    ∧ header = [heading; "*" +:+ kw +:+ "*"]
         else header = [heading])
  ∧ (∀ detail' : json,
       header_lines repr name detail' = Some header →
       Py.get_d detail' "controls" (JObj [])
       = Some (JObj (List.filter (keep_control meta.2) cs)) →
       format_widget repr name detail' = format_widget repr name detail)
  ∧ (∀ grouped gk g kc,
       widget_groups repr cs = Some grouped →
       group_at gk grouped = Some g → In kc (g_controls g) →
       should_skip kc.1 kc.2 = Some false ∧ is_advanced meta.2 kc = false).
Proof.
  intros Hheader Hcontrols Hmeta. split; [|split].
  - intros Hall. split; [|now apply header_lines_shape].
    unfold format_widget, widget_groups.
    rewrite Hheader, Hcontrols. cbn [obind]. rewrite Hmeta. cbn [obind].
    rewrite (group_controls_dropped repr _ _ cs [] Hall). cbn [obind].
    cbn [widget_lines List.filter tab_lines obind].
    now rewrite app_nil_r.
  - intros detail' Hheader' Hcontrols'.
    unfold format_widget, widget_groups.
    rewrite Hheader, Hheader', Hcontrols, Hcontrols'. cbn [obind].
    rewrite collect_sections_keep, Hmeta. cbn [obind].
    now rewrite group_controls_keep.
  - intros grouped gk g kc Hgroups. unfold widget_groups in Hgroups.
    rewrite Hmeta in Hgroups. cbn [obind] in Hgroups.
    apply (group_controls_members repr _ _ cs [] grouped Hgroups).
    intros gk' g' kc' Hg'. discriminate Hg'.
Qed.

(** *** Where a control without a section goes *)

Lemma collect_sections_absent (name : string) (cs : list (string * json))
    (labels tabs : gmap string json) (meta : gmap string json * gmap string json) :
  collect_sections cs labels tabs = Some meta →
  no_section_header name cs →
  labels !! name = None → tabs !! name = None →
  meta.1 !! name = None ∧ meta.2 !! name = None.
Proof.
  revert labels tabs.
  induction cs as [|[key ctrl] cs IH]; intros labels tabs Hrun Hno Hl Ht.
  - injection Hrun as <-. now split.
  - cbn [collect_sections] in Hrun.
    assert (Hno' : no_section_header name cs).
    { intros c ty Hin. apply Hno. now right. }
    destruct (Py.get ctrl "type") as [ty|] eqn:Hty; [|discriminate].
    cbn [obind] in Hrun.
    destruct (Py.is_str (default JNull ty) "section") eqn:Hsec; [|eauto].
    destruct (Py.get_d ctrl "label" (JStr key)); [|discriminate].
    destruct (Py.get_d ctrl "tab" (JStr "content")); [|discriminate].
    cbn [obind] in Hrun.
    assert (key ≠ name).
    { intros ->. specialize (Hno ctrl ty (or_introl eq_refl) Hty). congruence. }
    apply (IH _ _ Hrun Hno'); now rewrite lookup_insert_ne.
Qed.


(** C9, as stated, fails: a control without a section whose own tab is
    [advanced] passes the filter and is put in no group at all. *)
Lemma sectionless_advanced_control_not_grouped :
  should_skip "custom_css" (JObj [("type", JStr "code"); ("tab", JStr "advanced")])
  = Some false
  ∧ widget_groups sample_repr custom_css_controls = Some []
  ∧ ¬ sectionless_control_always_grouped.
Proof.
  split; [reflexivity|]. split; [reflexivity|]. intros H.
  destruct (H sample_repr custom_css_controls [] "custom_css"
              [("type", JStr "code"); ("tab", JStr "advanced")])
    as [g [Hg _]].
  - reflexivity.
  - now left.
  - reflexivity.
  - reflexivity.
  - intros ctrl ty [Hin|[]] _. discriminate Hin.
  - discriminate Hg.
Qed.

(** C9, amended.  A control that passes the filter, has no [section] and is
    not dropped for an [advanced] effective tab is filed under the composite
    key of its effective tab and the pseudo-section [other].  When no
    section-header control is named [other], that tab is the control's own
    [tab], or [content] without one; and when moreover no control of the
    widget reaches the same composite key from another tab or section, the
    group has the label [other] and that tab. *)
Theorem sectionless_control_group (repr : json → string)
    (cs : list (string * json)) (meta : gmap string json * gmap string json)
    (grouped : list (string * group)) (key : string) (m : list (string * json)) :
  collect_sections cs ∅ ∅ = Some meta →
  widget_groups repr cs = Some grouped →
  In (key, JObj m) cs →
  should_skip key (JObj m) = Some false →
  Py.dict_get "section" m = None →
  is_advanced meta.2 (key, JObj m) = false →
  ∃ tab g,
    effective_tab meta.2 (JObj m) = Some tab
    ∧ group_at (group_key repr tab (JStr "other")) grouped = Some g
    ∧ In (key, JObj m) (g_controls g)
    ∧ (no_section_header "other" cs →
       tab = default (JStr "content") (Py.dict_get "tab" m)
       ∧ (no_key_collision repr meta.2 cs tab (JStr "other") →
          g_label g = JStr "other" ∧ g_tab g = tab)).
Proof.
  intros Hmeta Hgroups Hin Hskip Hsec Hadv.
  unfold widget_groups in Hgroups. rewrite Hmeta in Hgroups. cbn [obind] in Hgroups.
  destruct meta as [labels tabs]. cbn [fst snd] in *.
  set (tab := default (default (JStr "content") (tabs !! "other")) (Py.dict_get "tab" m)).
  set (label := default (JStr "other") (labels !! "other")).
  assert (Hs : control_section (JObj m) = Some (JStr "other")).
  { unfold control_section, Py.get_d, Py.get. cbn [obind]. now rewrite Hsec. }
  assert (Ht : control_tab tabs (JObj m) (JStr "other") = Some tab) by reflexivity.
  assert (Hl : Py.lookup_d labels (JStr "other") (JStr "other") = Some label)
    by reflexivity.
  assert (Hnot : Py.is_str tab "advanced" = false).
  { unfold is_advanced, effective_tab in Hadv. cbn [fst snd] in Hadv.
    rewrite Hskip, Hs in Hadv. cbn [obind] in Hadv. now rewrite Ht in Hadv. }
  pose proof Hgroups as Hall.
  apply in_split in Hin as [pre [post ->]].
  apply group_controls_app in Hgroups as [mid [Hpre Hpost]].
  cbn [group_controls] in Hpost.
  rewrite (file_control_filed repr labels tabs (key, JObj m) (JStr "other") tab mid)
    in Hpost by (repeat split; assumption).
  rewrite Hl in Hpost. cbn [obind] in Hpost.
  set (gk := group_key repr tab (JStr "other")) in *.
  pose proof (group_at_add gk gk label tab (key, JObj m) mid) as Hadd.
  rewrite String.eqb_refl in Hadd.
  destruct (group_controls_persist repr labels tabs _ _ _ _ _ Hpost Hadd)
    as [g [Hg [Hlabel [Htab Hentries]]]].
  exists tab, g. split; [|split; [exact Hg | split]].
  - unfold effective_tab. rewrite Hs. exact Ht.
  - apply Hentries. destruct (group_at gk mid); cbn [g_controls].
    + apply in_or_app. right. now left.
    + now left.
  - intros Hno.
    destruct (collect_sections_absent "other" _ ∅ ∅ _ Hmeta Hno) as [Hla Hta];
      [apply lookup_empty..|].
    cbn [fst snd] in Hla, Hta.
    assert (Elabel : label = JStr "other") by (unfold label; now rewrite Hla).
    split; [unfold tab; now rewrite Hta|].
    intros Hfree. rewrite Hlabel, Htab.
    destruct (group_at gk mid) as [g0|] eqn:Hg0; cbn [g_label g_tab];
      [|now split].
    assert (Hcreated : created_from repr labels tabs
                         (pre ++ (key, JObj m) :: post) mid).
    { apply (group_controls_created repr labels tabs _ pre [] mid Hpre).
      - intros x Hx. apply in_or_app. now left.
      - intros gk' g' Hg'. discriminate Hg'. }
    destruct (Hcreated _ _ Hg0)
      as [[key' ctrl'] [section' [tab' [Hin' [[Hsk' [Hs' Ht']] [Hgk [Htab' Hlab']]]]]]].
    cbn [fst snd] in Hsk', Hs', Ht'.
    destruct (Hfree key' ctrl' section' tab' Hin' Hsk' Hs' Ht' (eq_sym Hgk))
      as [-> ->].
    split; [|exact Htab'].
    rewrite Hl in Hlab'. injection Hlab' as <-. exact Elabel.
Qed.

(** ** Credentials *)





(** ** The fetch worklist *)

Lemma practical_spec (widgets : list (string * json)) (name : string) :
  In name (practical widgets) ↔ In name (map fst widgets) ∧ excluded name = false.
Proof.
  unfold excluded. induction widgets as [|[n w] widgets IH]; cbn [practical map fst In].
  - tauto.
  - destruct (Py.mem n skip_names) eqn:Hmem.
    + rewrite IH. split; [tauto|]. intros [[->|Hin] Hex]; [|tauto].
      rewrite Hmem in Hex. discriminate Hex.
    + destruct (existsb (Py.startswith n) skip_prefixes) eqn:Hpre.
      * rewrite IH. split; [tauto|]. intros [[->|Hin] Hex]; [|tauto].
        rewrite Hmem, Hpre in Hex. discriminate Hex.
      * cbn [In]. rewrite IH. split.
        -- intros [->|H]; [|tauto]. rewrite Hmem, Hpre. tauto.
        -- tauto.
Qed.

Lemma practical_without (widgets : list (string * json)) (name : string) :
  excluded name = true →
  practical (List.filter (fun nw => negb (String.eqb nw.1 name)) widgets)
  = practical widgets.
Proof.
  unfold excluded. intros Hex.
  induction widgets as [|[n w] widgets IH]; [reflexivity|].
  cbn [List.filter fst].
  destruct (String.eqb_spec n name) as [->|Hne]; cbn [negb practical].
  - rewrite IH. apply orb_true_iff in Hex as [-> | Hpre]; [reflexivity|].
    rewrite Hpre. now destruct (Py.mem name skip_names).
  - now rewrite IH.
Qed.

Lemma insert_str_In (x y : string) (l : list string) :
  In y (Py.insert_str x l) ↔ y = x ∨ In y l.
Proof.
  induction l as [|z l IH]; cbn [Py.insert_str In].
  - intuition congruence.
  - destruct (String.ltb x z); cbn [In]; [intuition congruence|].
    rewrite IH. intuition congruence.
Qed.

Lemma sorted_str_In (y : string) (l : list string) :
  In y (Py.sorted_str l) ↔ In y l.
Proof.
  unfold Py.sorted_str. induction l as [|x l IH]; cbn [fold_right In]; [tauto|].
  rewrite insert_str_In, IH. intuition congruence.
Qed.

Section Fetch.
Variable repr : json → string.
Variable request_ok : string → bool.
Variable urlopen : string → string → option json.
Variable stdout_ok : string → bool.

Lemma fetch_one_events (base auth : string) (total : nat) (name : string)
    (i : nat) (output_by_cat : buckets) (e : event) :
  In e (fetch_one repr request_ok urlopen base auth total name i output_by_cat).1 →
  e = Get (base +:+ "/" +:+ name) auth ∨ ∃ s, e = Stderr s ∨ e = StderrSkip s.
Proof.
  unfold fetch_one. destruct (request_ok _); [|cbn [fst In]; intuition eauto].
  destruct (urlopen _ auth) as [detail|].
  - destruct (file_widget repr name detail output_by_cat) as [o [|]].
    + destruct (S i mod 20 =? 0)%nat; cbn [fst In]; intuition eauto.
    + cbn [fst In]. intuition eauto.
  - cbn [fst In]. intuition eauto.
Qed.

Lemma fetch_loop_requests (base auth : string) (total : nat) (names : list string)
    (i : nat) (output_by_cat : buckets) (url a : string) :
  In (Get url a) (fetch_loop repr request_ok urlopen base auth total names i output_by_cat).1 →
  ∃ name, In name names ∧ url = base +:+ "/" +:+ name.
Proof.
  revert i output_by_cat.
  induction names as [|name names IH]; intros i output_by_cat; [intros []|].
  cbn [fetch_loop].
  pose proof (fetch_one_events base auth total name i output_by_cat (Get url a))
    as Hone.
  destruct (fetch_one repr request_ok urlopen base auth total name i output_by_cat)
    as [events o].
  specialize (IH (S i) o).
  destruct (fetch_loop repr request_ok urlopen base auth total names (S i) o) as [later o'].
  cbn [fst] in Hone, IH |- *. intros Hin. apply in_app_or in Hin as [Hin|Hin].
  - destruct (Hone Hin) as [[= -> ->] | [s [H|H]]]; try discriminate H.
    exists name. split; [now left | reflexivity].
  - destruct (IH Hin) as [n [Hn ->]]. exists n. split; [now right | reflexivity].
Qed.

(** C7. A widget identifier that is in the exclusion set or starts with
    [wp-widget-] never enters the worklist [practical]; the run requests no
    detail of it; and the whole run, the printed document included, is the
    run on a list response without it. *)
Theorem excluded_widgets_are_ignored (name : string) :
  Py.mem name skip_names = true ∨ Py.startswith name "wp-widget-" = true →
  (∀ widgets, ¬ In name (practical widgets))
  ∧ (∀ base auth data a,
       ¬ In (Get (base +:+ "/" +:+ name) a)
            (run_with repr request_ok urlopen stdout_ok base auth data))
  ∧ (∀ base auth d d' widgets,
       Py.dict_get "widgets" d = Some (JObj widgets) →
       Py.dict_get "widgets" d'
       = Some (JObj (List.filter (fun nw => negb (String.eqb nw.1 name)) widgets)) →
       run_with repr request_ok urlopen stdout_ok base auth (JObj d')
       = run_with repr request_ok urlopen stdout_ok base auth (JObj d)).
Proof.
  intros Hname.
  assert (Hex : excluded name = true).
  { unfold excluded. destruct Hname as [-> | Hpre]; [reflexivity|].
    cbn [existsb skip_prefixes]. rewrite Hpre. apply orb_true_r. }
  assert (Hnot : ∀ widgets, ¬ In name (practical widgets)).
  { intros widgets Hin. apply practical_spec in Hin as [_ Hin]. congruence. }
  split; [exact Hnot|]. split.
  - intros base auth data a Hin. unfold run_with in Hin.
    destruct data as [| | | | | |d]; try (destruct Hin as [H|[]]; discriminate H).
    destruct (Py.dict_get "widgets" d) as [[| | | | | |widgets]|];
      try (destruct Hin as [H|[]]; discriminate H).
    pose proof (fetch_loop_requests base auth (length (practical widgets))
                  (Py.sorted_str (practical widgets)) 0 []
                  (base +:+ "/" +:+ name) a) as Hreq.
    destruct (fetch_loop repr request_ok urlopen base auth (length (practical widgets))
                (Py.sorted_str (practical widgets)) 0 []) as [events o].
    cbn [fst] in Hreq.
    destruct Hin as [H|Hin]; [discriminate H|].
    apply in_app_or in Hin as [Hin|Hin].
    + destruct (Hreq Hin) as [n [Hn Heq]].
      apply String.app_inj, String.app_inj in Heq. subst n.
      apply (proj1 (sorted_str_In _ _)) in Hn. exact (Hnot widgets Hn).
    + destruct (document repr o) as [md|]; [destruct (stdout_ok _)|];
        destruct Hin as [H|[]]; discriminate H.
  - intros base auth d d' widgets Hd Hd'. unfold run_with.
    rewrite Hd, Hd'. now rewrite (practical_without widgets name Hex).
Qed.

End Fetch.

(** ** The order of the category sections *)

Lemma ltb_lex_le (x y : string) : String.ltb x y = true → lex_le x y.
Proof.
  unfold String.ltb, lex_le, String.leb.
  destruct (String.compare x y); congruence.
Qed.

Lemma not_ltb_lex_le (x y : string) : String.ltb x y = false → lex_le y x.
Proof.
  unfold String.ltb, lex_le, String.leb. rewrite (String.compare_antisym y x).
  destruct (String.compare x y); cbn [CompOpp]; congruence.
Qed.

Lemma lex_le_trans (x y z : string) : lex_le x y → lex_le y z → lex_le x z.
Proof.
  unfold lex_le. intros Hxy Hyz.
  apply Is_true_true. apply Is_true_true in Hxy, Hyz.
  exact (transitivity (R := String.le) Hxy Hyz).
Qed.

Lemma insert_str_perm (x : string) (l : list string) :
  Permutation (Py.insert_str x l) (x :: l).
Proof.
  induction l as [|y l IH]; cbn [Py.insert_str]; [reflexivity|].
  destruct (String.ltb x y); [reflexivity|].
  rewrite IH. apply perm_swap.
Qed.

Lemma sorted_str_perm (l : list string) : Permutation (Py.sorted_str l) l.
Proof.
  unfold Py.sorted_str. induction l as [|x l IH]; cbn [fold_right]; [reflexivity|].
  rewrite insert_str_perm. now constructor.
Qed.

Lemma insert_str_sorted (x : string) (l : list string) :
  StronglySorted lex_le l → StronglySorted lex_le (Py.insert_str x l).
Proof.
  induction 1 as [|y l Hl IH Hy]; cbn [Py.insert_str].
  - repeat constructor.
  - destruct (String.ltb x y) eqn:Hxy.
    + apply ltb_lex_le in Hxy. constructor; [now constructor|].
      constructor; [exact Hxy|].
      eapply List.Forall_impl; [|exact Hy]. intros z. now apply lex_le_trans.
    + apply not_ltb_lex_le in Hxy. constructor; [exact IH|].
      apply List.Forall_forall. intros z Hz.
      apply insert_str_In in Hz as [->|Hz]; [exact Hxy|].
      now apply (proj1 (List.Forall_forall _ _) Hy).
Qed.

Lemma sorted_str_sorted (l : list string) : StronglySorted lex_le (Py.sorted_str l).
Proof.
  unfold Py.sorted_str. induction l as [|x l IH]; cbn [fold_right]; [constructor|].
  now apply insert_str_sorted.
Qed.

Lemma filter_sorted (f : string → bool) (l : list string) :
  StronglySorted lex_le l → StronglySorted lex_le (List.filter f l).
Proof.
  induction 1 as [|y l Hl IH Hy]; cbn [List.filter]; [constructor|].
  destruct (f y); [|exact IH]. constructor; [exact IH|].
  apply List.Forall_forall. intros z Hz. apply List.filter_In in Hz as [Hz _].
  now apply (proj1 (List.Forall_forall _ _) Hy).
Qed.

Lemma filter_perm (f : string → bool) (l l' : list string) :
  Permutation l l' → Permutation (List.filter f l) (List.filter f l').
Proof.
  induction 1 as [|x l l' _ IH|x y l|l l' l'' _ IH1 _ IH2]; cbn [List.filter].
  - constructor.
  - destruct (f x); [now constructor | exact IH].
  - destruct (f x), (f y); try reflexivity. apply perm_swap.
  - now transitivity (List.filter f l').
Qed.

(** Sorting keys that are all strings never raises, and sorts the strings. *)
Lemma insert_key_str (x : string) (l : list string) :
  Py.insert_key (JStr x) (map JStr l) = Some (map JStr (Py.insert_str x l)).
Proof.
  induction l as [|y l IH]; cbn [map Py.insert_key Py.insert_str Py.lt obind];
    [reflexivity|].
  destruct (String.ltb x y); [reflexivity|].
  rewrite IH. reflexivity.
Qed.

Lemma sorted_keys_str (l : list string) :
  Py.sorted_keys (map JStr l) = Some (map JStr (Py.sorted_str l)).
Proof.
  unfold Py.sorted_str.
  induction l as [|x l IH]; cbn [map Py.sorted_keys fold_right]; [reflexivity|].
  rewrite IH. cbn [obind]. apply insert_key_str.
Qed.

Lemma ordered_sections_flat (order : list string) (output_by_cat : buckets) :
  ordered_sections order output_by_cat
  = flat_map (section_of output_by_cat) (List.filter (has_bucket output_by_cat) order).
Proof.
  induction order as [|cat order IH]; cbn [ordered_sections List.filter];
    [reflexivity|].
  unfold has_bucket at 1.
  destruct (bucket (JStr cat) output_by_cat) as [blocks|] eqn:Hb; [|exact IH].
  cbn [flat_map]. unfold section_of at 1. rewrite Hb, IH. reflexivity.
Qed.

Lemma remaining_sections_flat (repr : json → string) (cats : list string)
    (output_by_cat : buckets) :
  remaining_sections repr (map JStr cats) output_by_cat
  = flat_map (section_of output_by_cat)
             (List.filter (fun cat => negb (Py.mem cat category_order)) cats).
Proof.
  induction cats as [|cat cats IH];
    cbn [map remaining_sections List.filter in_category_order]; [reflexivity|].
  destruct (Py.mem cat category_order); cbn [negb]; [exact IH|].
  cbn [flat_map]. now rewrite IH.
Qed.

Lemma bucket_string_keyed (cat : string) (tbl : list (string * list string)) :
  bucket (JStr cat) (string_keyed tbl)
  = option_map snd (List.find (fun cw => String.eqb cw.1 cat) tbl).
Proof.
  induction tbl as [|[k ws] tbl IH]; [reflexivity|].
  cbn [string_keyed map bucket List.find fst snd Py.key_eqb].
  destruct (String.eqb k cat); [reflexivity | exact IH].
Qed.

(** C6, as stated, fails: categories that are numbers are sorted by value,
    so that the section of 9 stands before that of 10, while the headings
    [9] and [10] are in the other order as texts. *)
Lemma numeric_categories_sorted_by_value :
  main sample_repr with_scheme numbered_site any_text
       ["generate-widget-reference.py"; "https://example.com"; "admin"; "secret"]
       ∅
  = [ Get "https://example.com/wp-json/communitytech/v1/elementor/widgets"
          "Basic YWRtaW46c2VjcmV0";
      Stderr "Fetching 2 widgets...";
      Get "https://example.com/wp-json/communitytech/v1/elementor/widgets/a"
          "Basic YWRtaW46c2VjcmV0";
      Get "https://example.com/wp-json/communitytech/v1/elementor/widgets/b"
          "Basic YWRtaW46c2VjcmV0";
      Stdout (Py.join newline
                (preamble ++ [ ""; "## 9"; ""; "### `b` — b"; "";
                               ""; "## 10"; ""; "### `a` — a"; "" ])) ]
  ∧ (fetch_loop sample_repr with_scheme numbered_site
       "https://example.com/wp-json/communitytech/v1/elementor/widgets"
       "Basic YWRtaW46c2VjcmV0" 2 ["a"; "b"] 0 []).2 = numbered
  ∧ document sample_repr numbered
    = Some (preamble ++ [ ""; "## 9"; ""; "### `b` — b"; "";
                          ""; "## 10"; ""; "### `a` — a"; "" ])
  ∧ String.leb "9" "10" = false
  ∧ ¬ remaining_sorted_by_heading.
Proof.
  split; [reflexivity|]. split; [reflexivity|].
  assert (Hdoc : document sample_repr numbered
                 = Some (preamble ++ [ ""; "## 9"; ""; "### `b` — b"; "";
                                       ""; "## 10"; ""; "### `a` — a"; "" ]))
    by reflexivity.
  split; [exact Hdoc|]. split; [reflexivity|]. intros H.
  destruct (H sample_repr numbered _ Hdoc) as [rest [Hmd [Hperm Hsorted]]].
  apply Permutation_sym, Permutation_length_2_inv in Hperm as [-> | ->].
  - apply app_inv_head in Hmd. discriminate Hmd.
  - inversion_clear Hsorted as [|? ? _ Hall].
    inversion_clear Hall as [|? ? Hle _]. discriminate Hle.
Qed.

(** C6, amended.  When every category is a text, the document is the
    preamble, then the sections of those of [basic], [general],
    [pro-elements], [theme-elements], [theme-elements-single],
    [theme-elements-archive] and [link-in-bio] that have a bucket, in this
    order, then the sections of all other categories in lexicographic order.
    A section is an empty line, the heading [## ] with the category, an
    empty line, and then each block of the category followed by an empty
    line. *)
Theorem category_sections_order (repr : json → string)
    (tbl : list (string * list string)) :
  let preferred :=
    [ "basic"; "general"; "pro-elements"; "theme-elements";
      "theme-elements-single"; "theme-elements-archive"; "link-in-bio" ] in
  let found (cat : string) : option (list string) :=
    option_map snd (List.find (fun cw => String.eqb cw.1 cat) tbl) in
  let present (cat : string) : bool :=
    match found cat with Some _ => true | None => false end in
  let section (cat : string) : list string :=
    [""; "## " +:+ cat; ""]
    ++ flat_map (fun widget_md => [widget_md; ""]) (default [] (found cat)) in
  ∃ rest : list string,
    document repr (string_keyed tbl)
    = Some (preamble ++ flat_map section (List.filter present preferred ++ rest))
    ∧ Permutation rest
        (List.filter (fun cat => negb (existsb (String.eqb cat) preferred))
                     (map fst tbl))
    ∧ StronglySorted (fun a b => String.leb a b = true) rest.
Proof.
  intros preferred found present section.
  exists (List.filter (fun cat => negb (Py.mem cat category_order))
                      (Py.sorted_str (map fst tbl))).
  split; [|split].
  - unfold document.
    assert (Hkeys : map fst (string_keyed tbl) = map JStr (map fst tbl)).
    { unfold string_keyed. rewrite !List.map_map. reflexivity. }
    rewrite Hkeys, sorted_keys_str. cbn [obind].
    rewrite ordered_sections_flat, remaining_sections_flat, flat_map_app.
    assert (Hsection : ∀ cat, section_of (string_keyed tbl) cat = section cat).
    { intros cat. unfold section_of, section_lines, section, found.
      now rewrite bucket_string_keyed. }
    assert (Hpresent : ∀ cat, has_bucket (string_keyed tbl) cat = present cat).
    { intros cat. unfold has_bucket, present, found.
      now rewrite bucket_string_keyed. }
    rewrite (List.filter_ext _ _ Hpresent).
    now rewrite !(flat_map_ext _ _ Hsection).
  - apply filter_perm, sorted_str_perm.
  - apply filter_sorted, sorted_str_sorted.
Qed.


(** * Further properties *)

(** ** The control filter *)

Lemma skip_contains_loop_any (patterns : list string) (key : string) :
  skip_contains_loop patterns key
  = if existsb (fun p => Py.contains p key) patterns
    then Some (negb (Py.endswith key "_typography" || Py.endswith key "_type"))
    else None.
Proof.
  induction patterns as [|p rest IH]; cbn [skip_contains_loop existsb];
    [reflexivity|].
  destruct (Py.contains p key); cbn [orb]; [|exact IH].
  now destruct (_ || _).
Qed.

(** X1. [should_skip] raises exactly when the key does not start with an
    underscore and the descriptor is not a mapping or its type is a list or a
    mapping. *)
Theorem should_skip_raises_iff (key : string) (ctrl : json) :
  should_skip key ctrl = None
  ↔ Py.startswith key "_" = false
    ∧ (Py.is_dict ctrl = false
       ∨ ∃ ty, Py.get ctrl "type" = Some (Some ty) ∧ Py.hashable ty = false).
Proof.
  unfold should_skip.
  destruct (Py.startswith key "_"); [split; [discriminate | intros [H _]; discriminate H]|].
  destruct ctrl as [| | | | | |m];
    try (cbn [Py.get obind Py.is_dict]; split; [auto | reflexivity]).
  cbn [Py.get obind Py.is_dict].
  assert (Hrest : ∀ b : bool,
             (if b then Some true
              else if existsb (Py.endswith key) SKIP_SUFFIXES then Some true
              else if Py.mem key SKIP_EXACT then Some true
              else match skip_contains_loop SKIP_CONTAINS key with
                   | Some b0 => Some b0
                   | None =>
                       if Py.contains "hover_" key &&
                          existsb (fun p => Py.contains p key)
                                  ["_position"; "_size"; "_image"; "_video"; "_slideshow"]
                       then Some true
                       else if Py.contains "css_filter" key
                               && negb (Py.endswith key "css_filter")
                       then Some true else Some false
                   end) ≠ None).
  { intros b. destruct b; [discriminate|].
    destruct (existsb _ SKIP_SUFFIXES); [discriminate|].
    destruct (Py.mem key SKIP_EXACT); [discriminate|].
    destruct (skip_contains_loop SKIP_CONTAINS key); [discriminate|].
    destruct (_ && _); [discriminate|]. destruct (_ && _); discriminate. }
  unfold Py.in_set.
  destruct (Py.dict_get "type" m) as [ty|] eqn:Hty; cbn [default from_option id].
  - destruct (Py.hashable ty) eqn:Hh; cbn [obind].
    + split; [intros H; elim (Hrest _ H)|].
      intros [_ [H | [ty' [[= <-] H]]]]; congruence.
    + split; [|reflexivity]. intros _. split; [reflexivity|]. right. now exists ty.
  - cbn [Py.hashable obind]. split; [intros H; elim (Hrest false H)|].
    intros [_ [H | [ty' [H _]]]]; discriminate H.
Qed.

(** X2. A control that [should_skip] keeps does not start with an underscore,
    has a type outside SKIP_TYPES, ends with no responsive suffix and is not
    in SKIP_EXACT.  If it holds a sub-property pattern it ends with
    [_typography] or [_type]; if it holds none, it is no hover variant of a
    background sub-control and it holds [css_filter] only at its end. *)
Theorem kept_control_passes_every_rule (key : string) (ctrl : json) :
  should_skip key ctrl = Some false →
  Py.startswith key "_" = false
  ∧ (∃ ty, Py.get ctrl "type" = Some ty
           ∧ Py.in_set (default JNull ty) SKIP_TYPES = Some false)
  ∧ existsb (Py.endswith key) SKIP_SUFFIXES = false
  ∧ Py.mem key SKIP_EXACT = false
  ∧ (if existsb (fun p => Py.contains p key) SKIP_CONTAINS
     then Py.endswith key "_typography" || Py.endswith key "_type" = true
     else Py.contains "hover_" key
          && existsb (fun p => Py.contains p key)
                     ["_position"; "_size"; "_image"; "_video"; "_slideshow"]
          = false
          ∧ (Py.contains "css_filter" key = true →
             Py.endswith key "css_filter" = true)).
Proof.
  unfold should_skip. rewrite skip_contains_loop_any.
  destruct (Py.startswith key "_"); [discriminate|].
  destruct (Py.get ctrl "type") as [ty|]; [|discriminate]. cbn [obind].
  destruct (Py.in_set (default JNull ty) SKIP_TYPES) as [[|]|] eqn:Hin;
    try discriminate.
  cbn [obind].
  destruct (existsb (Py.endswith key) SKIP_SUFFIXES); [discriminate|].
  destruct (Py.mem key SKIP_EXACT); [discriminate|].
  intros H. split; [reflexivity|]. split; [now exists ty|].
  do 2 (split; [reflexivity|]).
  destruct (existsb (fun p => Py.contains p key) SKIP_CONTAINS).
  - destruct (_ || _); [reflexivity | discriminate H].
  - destruct (Py.contains "hover_" key && _); [discriminate H|].
    split; [reflexivity|]. intros Hcss. rewrite Hcss in H.
    destruct (Py.endswith key "css_filter"); [reflexivity | discriminate H].
Qed.

(** X3. A key that holds a sub-property pattern and ends with neither
    [_typography] nor [_type] is skipped, whatever the mapping with a
    hashable type that describes it. *)
Theorem sub_property_is_skipped (key : string) (ctrl : json) (ty : option json) :
  Py.get ctrl "type" = Some ty →
  Py.hashable (default JNull ty) = true →
  existsb (fun p => Py.contains p key) SKIP_CONTAINS = true →
  Py.endswith key "_typography" = false →
  Py.endswith key "_type" = false →
  should_skip key ctrl = Some true.
Proof.
  intros Hty Hh Hany Htypo Htype.
  unfold should_skip. rewrite skip_contains_loop_any, Hany, Htypo, Htype, Hty.
  destruct (Py.startswith key "_"); [reflexivity|].
  cbn [obind]. unfold Py.in_set. rewrite Hh. cbn [obind orb negb].
  destruct (match default JNull ty with JStr s => Py.mem s SKIP_TYPES | _ => false end);
    [reflexivity|].
  destruct (existsb _ SKIP_SUFFIXES); [reflexivity|].
  now destruct (Py.mem key SKIP_EXACT).
Qed.

(** ** The control formatter *)

Lemma append_empty_r (a : string) : a +:+ "" = a.
Proof.
  induction a as [|x a IH]; [reflexivity|].
  change (String x (a +:+ "") = String x a). now rewrite IH.
Qed.

(** Splits the chain of tests of [format_control] *)
Ltac split_branches :=
  repeat match goal with
         | |- context [if ?b then _ else _] => destruct b
         | |- context [match ?d with JStr _ => _ | _ => _ end] => destruct d
         end.

(** X4. [format_control] raises exactly when the descriptor is not a mapping,
    or it is a select control whose truthy [options] is neither a list nor a
    mapping. *)
Theorem format_control_raises_iff (repr : json → string) (key : string) (ctrl : json) :
  format_control repr key ctrl = None
  ↔ Py.is_dict ctrl = false
    ∨ ∃ m, ctrl = JObj m
           ∧ Py.is_str (default (JStr "unknown") (Py.dict_get "type" m)) "select" = true
           ∧ Py.truthy (default (JObj []) (Py.dict_get "options" m)) = true
           ∧ Py.is_list (default (JObj []) (Py.dict_get "options" m)) = false
           ∧ Py.is_dict (default (JObj []) (Py.dict_get "options" m)) = false.
Proof.
  destruct ctrl as [| | | | | |m];
    try (split; [intros _; now left | reflexivity]).
  unfold format_control, Py.get_d, Py.get. cbn [obind Py.is_dict].
  set (ctype := default (JStr "unknown") (Py.dict_get "type" m)).
  set (options := default (JObj []) (Py.dict_get "options" m)).
  set (default_ := default (JStr "") (Py.dict_get "default" m)).
  transitivity (Py.is_str ctype "select" = true ∧ Py.truthy options = true
                ∧ Py.is_list options = false ∧ Py.is_dict options = false).
  2:{ split.
      - intros H. right. exists m. auto.
      - intros [H | [m' [[= <-] H]]]; [discriminate H | exact H]. }
  destruct (Py.is_list options) eqn:Hlist.
  { split; [discriminate|]. intros [_ [_ [H _]]]. discriminate H. }
  destruct (Py.is_str ctype "select") eqn:Hselect; cbn [andb].
  - destruct (Py.truthy options) eqn:Htruthy.
    + destruct options as [| | | | | |o]; cbn [Py.keys obind Py.is_dict];
        try (split; [intros _; auto | reflexivity]).
      split.
      * destruct (non_empty (map fst o)); [discriminate|].
        destruct (_ <=? _)%nat; discriminate.
      * intros [_ [_ [_ H]]]. discriminate H.
    + split; [|intros [_ [H _]]; discriminate H].
      destruct (Py.is_str ctype "choose" && Py.is_dict options) eqn:Hchoose.
      * apply andb_true_iff in Hchoose as [_ Hd].
        destruct options; try discriminate Hd. discriminate.
      * split_branches; discriminate.
  - split; [|intros [H _]; discriminate H].
    destruct (Py.is_str ctype "choose" && Py.is_dict options) eqn:Hchoose.
    + apply andb_true_iff in Hchoose as [_ Hd].
      destruct options; try discriminate Hd. discriminate.
    + split_branches; discriminate.
Qed.

(** X5. The key enters a fragment only as its quoted head: what follows it
    is the same for every key. *)
Theorem format_control_key_independent (repr : json → string) (key : string)
    (ctrl : json) (fragment : string) :
  format_control repr key ctrl = Some fragment →
  ∃ suffix, ∀ key', format_control repr key' ctrl = Some (quoted key' +:+ suffix).
Proof.
  destruct ctrl as [| | | | | |m]; try discriminate.
  unfold format_control, Py.get_d, Py.get. cbn [obind].
  set (ctype := default (JStr "unknown") (Py.dict_get "type" m)).
  set (options := default (JObj []) (Py.dict_get "options" m)).
  set (default_ := default (JStr "") (Py.dict_get "default" m)).
  destruct (Py.is_list options); [intros _; eexists; intros; reflexivity|].
  destruct (Py.is_str ctype "select" && Py.truthy options).
  { destruct (Py.keys options) as [ks|]; [|discriminate]. cbn [obind].
    destruct (non_empty ks).
    - intros _. exists "". intros key'. now rewrite append_empty_r.
    - destruct (_ <=? _)%nat; intros _; eexists; intros; reflexivity. }
  destruct (Py.is_str ctype "choose" && Py.is_dict options).
  { destruct (Py.keys options) as [ks|]; [|discriminate]. cbn [obind].
    intros _; eexists; intros; reflexivity. }
  intros _. split_branches; eexists; intros; reflexivity.
Qed.

(** ** Grouping *)

Section Grouping.
Variable repr : json → string.
Variables section_labels section_tabs : gmap string json.

(** A turn of the grouping loop, read through [filing_key] *)
Lemma file_control_filing (kc : string * json) (grouped grouped' : list (string * group)) :
  file_control repr section_labels section_tabs kc grouped = Some grouped' →
  match filing_key repr section_tabs kc with
  | None => grouped' = grouped
  | Some gk => ∃ label tab, grouped' = add_to_group gk label tab kc grouped
  end.
Proof.
  destruct kc as [key ctrl]. unfold filing_key. cbn [file_control fst snd].
  destruct (should_skip key ctrl) as [[|]|]; cbn [obind];
    [intros [= <-]; reflexivity | | discriminate].
  destruct (control_section ctrl) as [section|]; cbn [obind]; [|discriminate].
  destruct (control_tab section_tabs ctrl section) as [tab|]; cbn [obind];
    [|discriminate].
  destruct (Py.is_str tab "advanced"); [intros [= <-]; reflexivity|].
  destruct (Py.lookup_d section_labels section section) as [label|]; cbn [obind];
    [|discriminate].
  intros [= <-]. now exists label, tab.
Qed.

Lemma controls_at_add (gk gk' : string) (label tab : json) (entry : string * json)
    (grouped : list (string * group)) :
  controls_at gk' (add_to_group gk label tab entry grouped)
  = controls_at gk' grouped ++ (if String.eqb gk gk' then [entry] else []).
Proof.
  unfold controls_at. rewrite group_at_add.
  destruct (String.eqb_spec gk gk') as [<-|_].
  - now destruct (group_at gk grouped).
  - now rewrite app_nil_r.
Qed.

Lemma group_controls_contents (cs : list (string * json))
    (acc grouped : list (string * group)) (gk : string) :
  group_controls repr section_labels section_tabs cs acc = Some grouped →
  controls_at gk grouped
  = controls_at gk acc ++ List.filter (files_under repr section_tabs gk) cs.
Proof.
  revert acc. induction cs as [|kc cs IH]; intros acc Hrun.
  - injection Hrun as <-. cbn [List.filter]. now rewrite app_nil_r.
  - cbn [group_controls] in Hrun.
    destruct (file_control repr section_labels section_tabs kc acc) as [acc'|]
      eqn:Hstep; [|discriminate].
    cbn [obind] in Hrun. rewrite (IH _ Hrun).
    apply file_control_filing in Hstep. cbn [List.filter]. unfold files_under at 2.
    destruct (filing_key repr section_tabs kc) as [k|].
    + destruct Hstep as [label [tab ->]]. rewrite controls_at_add.
      rewrite <- app_assoc. now destruct (String.eqb k gk).
    + now subst acc'.
Qed.

Lemma group_controls_not_empty (cs : list (string * json))
    (acc grouped : list (string * group)) :
  group_controls repr section_labels section_tabs cs acc = Some grouped →
  (∀ gk g, group_at gk acc = Some g → g_controls g ≠ []) →
  ∀ gk g, group_at gk grouped = Some g → g_controls g ≠ [].
Proof.
  revert acc. induction cs as [|kc cs IH]; intros acc Hrun Hacc.
  - now injection Hrun as <-.
  - cbn [group_controls] in Hrun.
    destruct (file_control repr section_labels section_tabs kc acc) as [acc'|]
      eqn:Hstep; [|discriminate].
    cbn [obind] in Hrun. apply (IH _ Hrun).
    apply file_control_filing in Hstep.
    destruct (filing_key repr section_tabs kc) as [k|]; [|now subst acc'].
    destruct Hstep as [label [tab ->]]. intros gk g. rewrite group_at_add.
    destruct (String.eqb k gk); [|apply Hacc].
    intros [= <-]. destruct (group_at k acc); cbn [g_controls];
      [now destruct (g_controls g) | discriminate].
Qed.

Lemma add_to_group_keys (gk : string) (label tab : json) (entry : string * json)
    (grouped : list (string * group)) :
  map fst (add_to_group gk label tab entry grouped)
  = if Py.mem gk (map fst grouped) then map fst grouped
    else map fst grouped ++ [gk].
Proof.
  unfold Py.mem.
  induction grouped as [|[k g] grouped IH]; cbn [add_to_group map fst existsb];
    [reflexivity|].
  rewrite (String.eqb_sym gk k).
  destruct (String.eqb k gk); cbn [orb map fst]; [reflexivity|].
  rewrite IH. now destruct (existsb (String.eqb gk) (map fst grouped)).
Qed.

Lemma group_controls_keys (cs : list (string * json))
    (acc grouped : list (string * group)) :
  group_controls repr section_labels section_tabs cs acc = Some grouped →
  map fst grouped
  = fold_left (fun seen k => if Py.mem k seen then seen else seen ++ [k])
              (omap (filing_key repr section_tabs) cs) (map fst acc).
Proof.
  revert acc. induction cs as [|kc cs IH]; intros acc Hrun.
  - now injection Hrun as <-.
  - cbn [group_controls] in Hrun.
    destruct (file_control repr section_labels section_tabs kc acc) as [acc'|]
      eqn:Hstep; [|discriminate].
    cbn [obind] in Hrun. rewrite (IH _ Hrun).
    apply file_control_filing in Hstep. cbn [omap list_omap].
    destruct (filing_key repr section_tabs kc) as [k|]; [|now subst acc'].
    destruct Hstep as [label [tab ->]]. cbn [fold_left].
    now rewrite add_to_group_keys.
Qed.

End Grouping.

Lemma first_seen_step_NoDup (keys seen : list string) :
  NoDup seen →
  NoDup (fold_left (fun seen k => if Py.mem k seen then seen else seen ++ [k])
                   keys seen).
Proof.
  revert seen. induction keys as [|k keys IH]; intros seen Hseen; [exact Hseen|].
  cbn [fold_left]. apply IH.
  destruct (Py.mem k seen) eqn:Hmem; [exact Hseen|].
  apply NoDup_app. split; [exact Hseen|]. split; [|apply NoDup_singleton].
  intros x Hx Hk. apply list_elem_of_In in Hk as [<-|[]].
  unfold Py.mem in Hmem. apply list_elem_of_In in Hx.
  assert (existsb (String.eqb k) seen = true); [|congruence].
  apply existsb_exists. exists k. split; [exact Hx | apply String.eqb_refl].
Qed.

(** X6. The controls of a group are the controls of the widget that pass the
    filter, are not advanced and have the composite key of the group, in the
    order of the schema; a composite key has a group exactly when there is
    such a control, so no group is empty. *)
Theorem groups_hold_the_kept_controls (repr : json → string)
    (cs : list (string * json)) (meta : gmap string json * gmap string json)
    (grouped : list (string * group)) (gk : string) :
  collect_sections cs ∅ ∅ = Some meta →
  widget_groups repr cs = Some grouped →
  controls_at gk grouped = List.filter (files_under repr meta.2 gk) cs
  ∧ (group_at gk grouped = None
     ↔ List.filter (files_under repr meta.2 gk) cs = []).
Proof.
  intros Hmeta Hgroups. unfold widget_groups in Hgroups.
  rewrite Hmeta in Hgroups. cbn [obind] in Hgroups.
  pose proof (group_controls_contents repr _ _ cs [] grouped gk Hgroups) as Hc.
  cbn [controls_at group_at app] in Hc. split; [exact Hc|].
  rewrite <- Hc. unfold controls_at. split; [now intros ->|].
  destruct (group_at gk grouped) as [g|] eqn:Hg; [|reflexivity].
  intros Hempty. exfalso.
  apply (group_controls_not_empty repr _ _ cs [] grouped Hgroups) with gk g;
    [discriminate | exact Hg | exact Hempty].
Qed.

(** X7. The groups stand in the order in which their first control stands in
    the schema, one group for each composite key. *)
Theorem groups_in_first_seen_order (repr : json → string)
    (cs : list (string * json)) (meta : gmap string json * gmap string json)
    (grouped : list (string * group)) :
  collect_sections cs ∅ ∅ = Some meta →
  widget_groups repr cs = Some grouped →
  map fst grouped = first_seen (omap (filing_key repr meta.2) cs)
  ∧ NoDup (map fst grouped).
Proof.
  intros Hmeta Hgroups. unfold widget_groups in Hgroups.
  rewrite Hmeta in Hgroups. cbn [obind] in Hgroups.
  pose proof (group_controls_keys repr _ _ cs [] grouped Hgroups) as Hk.
  cbn [map] in Hk. split; [exact Hk|].
  rewrite Hk. apply first_seen_step_NoDup. constructor.
Qed.

(** ** Section headers *)

Lemma collect_sections_other (name : string) (cs : list (string * json))
    (labels tabs : gmap string json) (meta : gmap string json * gmap string json) :
  collect_sections cs labels tabs = Some meta →
  ¬ In name (map fst cs) →
  meta.1 !! name = labels !! name ∧ meta.2 !! name = tabs !! name.
Proof.
  revert labels tabs.
  induction cs as [|[key ctrl] cs IH]; intros labels tabs Hrun Hnot.
  - injection Hrun as <-. now split.
  - cbn [collect_sections] in Hrun. cbn [map fst In] in Hnot.
    destruct (Py.get ctrl "type") as [ty|]; [|discriminate]. cbn [obind] in Hrun.
    destruct (Py.is_str (default JNull ty) "section"); [|apply IH; tauto].
    destruct (Py.get_d ctrl "label" (JStr key)); [|discriminate].
    destruct (Py.get_d ctrl "tab" (JStr "content")); [|discriminate].
    cbn [obind] in Hrun.
    destruct (IH _ _ Hrun) as [Hl Ht]; [tauto|].
    rewrite Hl, Ht. rewrite !lookup_insert_ne by tauto. now split.
Qed.

Lemma collect_sections_header (name : string) (m : list (string * json))
    (cs : list (string * json)) (labels tabs : gmap string json)
    (meta : gmap string json * gmap string json) :
  collect_sections cs labels tabs = Some meta →
  NoDup (map fst cs) →
  In (name, JObj m) cs →
  Py.is_str (default JNull (Py.dict_get "type" m)) "section" = true →
  meta.1 !! name = Some (default (JStr name) (Py.dict_get "label" m))
  ∧ meta.2 !! name = Some (default (JStr "content") (Py.dict_get "tab" m)).
Proof.
  revert labels tabs.
  induction cs as [|[key ctrl] cs IH]; intros labels tabs Hrun Hnodup Hin Hsec;
    [destruct Hin|].
  cbn [map fst] in Hnodup. apply NoDup_cons in Hnodup as [Hfresh Hnodup].
  cbn [collect_sections] in Hrun.
  destruct Hin as [[= -> ->] | Hin].
  - cbn [Py.get obind] in Hrun. rewrite Hsec in Hrun.
    cbn [Py.get_d Py.get obind] in Hrun.
    destruct (collect_sections_other name _ _ _ _ Hrun) as [Hl Ht].
    { intros H. apply Hfresh. now apply list_elem_of_In. }
    rewrite Hl, Ht, !lookup_insert_eq. now split.
  - destruct (Py.get ctrl "type") as [ty|]; [|discriminate]. cbn [obind] in Hrun.
    destruct (Py.is_str (default JNull ty) "section"); [|eauto].
    destruct (Py.get_d ctrl "label" (JStr key)); [|discriminate].
    destruct (Py.get_d ctrl "tab" (JStr "content")); [|discriminate].
    cbn [obind] in Hrun. eauto.
Qed.

(** X8. The label and tab recorded for a section are those of its header
    control, with the key of the header as label and [content] as tab when
    the header gives none; a name without header control has neither. *)
Theorem section_metadata_lookup (cs : list (string * json))
    (meta : gmap string json * gmap string json) (name : string) :
  collect_sections cs ∅ ∅ = Some meta →
  NoDup (map fst cs) →
  (∀ m, In (name, JObj m) cs →
        Py.is_str (default JNull (Py.dict_get "type" m)) "section" = true →
        meta.1 !! name = Some (default (JStr name) (Py.dict_get "label" m))
        ∧ meta.2 !! name = Some (default (JStr "content") (Py.dict_get "tab" m)))
  ∧ (no_section_header name cs → meta.1 !! name = None ∧ meta.2 !! name = None).
Proof.
  intros Hmeta Hnodup. split.
  - intros m. now apply collect_sections_header with (labels := ∅) (tabs := ∅).
  - intros Hno.
    apply (collect_sections_absent name cs ∅ ∅ meta Hmeta Hno); apply lookup_empty.
Qed.

(** ** The widget block *)

Lemma collect_sections_not_mapping (key : string) (ctrl : json)
    (cs : list (string * json)) (labels tabs : gmap string json) :
  In (key, ctrl) cs → Py.is_dict ctrl = false →
  collect_sections cs labels tabs = None.
Proof.
  intros Hin Hdict. revert labels tabs.
  induction cs as [|[k c] cs IH]; intros labels tabs; [destruct Hin|].
  cbn [collect_sections]. destruct Hin as [[= -> ->] | Hin].
  - destruct ctrl; try reflexivity. discriminate Hdict.
  - destruct (Py.get c "type") as [ty|]; [|reflexivity]. cbn [obind].
    destruct (Py.is_str (default JNull ty) "section"); [|auto].
    destruct (Py.get_d c "label" (JStr k)); [|reflexivity].
    destruct (Py.get_d c "tab" (JStr "content")); [|reflexivity].
    cbn [obind]. auto.
Qed.

(** X9. [format_widget] raises when [controls] is not a mapping, and when one
    of the control descriptors is not a mapping, even a descriptor whose key
    starts with an underscore. *)
Theorem format_widget_raises_on_malformed_controls (repr : json → string)
    (name : string) (detail controls : json) :
  Py.get_d detail "controls" (JObj []) = Some controls →
  Py.is_dict controls = false
  ∨ (∃ cs key ctrl, controls = JObj cs ∧ In (key, ctrl) cs ∧ Py.is_dict ctrl = false) →
  format_widget repr name detail = None.
Proof.
  intros Hcontrols Hbad. unfold format_widget.
  destruct (header_lines repr name detail); [|reflexivity]. cbn [obind].
  rewrite Hcontrols. cbn [obind].
  destruct Hbad as [Hdict | [cs [key [ctrl [-> [Hin Hdict]]]]]].
  - destruct controls; try reflexivity. discriminate Hdict.
  - unfold widget_groups.
    now rewrite (collect_sections_not_mapping key ctrl cs ∅ ∅ Hin Hdict).
Qed.

Lemma filter_absorb {A : Type} (p q : A → bool) (l : list A) :
  (∀ x, p x = true → q x = true) →
  List.filter p (List.filter q l) = List.filter p l.
Proof.
  intros Hpq. induction l as [|x l IH]; [reflexivity|].
  cbn [List.filter]. destruct (q x) eqn:Hq; cbn [List.filter].
  - now rewrite IH.
  - destruct (p x) eqn:Hp; [|exact IH]. apply Hpq in Hp. congruence.
Qed.

(** X10. Only the groups of the tabs [content] and [style] reach the bullet
    lines: the groups of any other tab are left out, and their controls are
    not even formatted. *)
Theorem other_tabs_are_left_out (repr : json → string)
    (grouped : list (string * group)) :
  widget_lines repr ["content"; "style"] grouped
  = widget_lines repr ["content"; "style"]
      (List.filter (fun kv => Py.is_str (g_tab kv.2) "content"
                              || Py.is_str (g_tab kv.2) "style") grouped).
Proof.
  cbn [widget_lines].
  rewrite !filter_absorb; [reflexivity | |]; intros kv H; rewrite H;
    [apply orb_true_r | reflexivity].
Qed.

Lemma join_head (sep head : string) (rest : list string) :
  ∃ tail, Py.join sep (head :: rest) = head +:+ tail.
Proof.
  unfold Py.join. cbn [String.concat]. destruct rest.
  - exists "". now rewrite append_empty_r.
  - eexists. reflexivity.
Qed.

(** X11. A widget block starts with the level-3 heading of the widget: its
    identifier in backticks and its title, or its identifier again when the
    detail has no title. *)
Theorem format_widget_starts_with_heading (repr : json → string) (name : string)
    (detail : json) (block : string) :
  format_widget repr name detail = Some block →
  ∃ title tail,
    Py.get_d detail "title" (JStr name) = Some title
    ∧ block = ("### `" +:+ name +:+ "` — " +:+ Py.str repr title) +:+ tail.
Proof.
  unfold format_widget.
  destruct (header_lines repr name detail) as [header|] eqn:Hheader; [|discriminate].
  cbn [obind].
  destruct (Py.get_d detail "controls" (JObj [])) as [[| | | | | |cs]|];
    try discriminate.
  cbn [obind].
  destruct (widget_groups repr cs) as [grouped|]; [|discriminate]. cbn [obind].
  destruct (widget_lines repr ["content"; "style"] grouped) as [bullets|];
    [|discriminate].
  cbn [obind]. intros [= <-].
  apply header_lines_shape in Hheader as [title [keywords [Htitle [_ Hshape]]]].
  exists title. cbv zeta in Hshape.
  destruct (Py.truthy keywords).
  - destruct Hshape as [kw [_ ->]]. cbn [app].
    destruct (join_head newline ("### `" +:+ name +:+ "` — " +:+ Py.str repr title)
                (("*" +:+ kw +:+ "*") :: bullets)) as [tail ->].
    now exists tail.
  - rewrite Hshape. cbn [app].
    destruct (join_head newline ("### `" +:+ name +:+ "` — " +:+ Py.str repr title)
                bullets) as [tail ->].
    now exists tail.
Qed.

Section Bullets.
Variable repr : json → string.

Lemma format_controls_length (cs : list (string * json)) (strs : list string) :
  format_controls repr cs = Some strs → length strs = length cs.
Proof.
  revert strs. induction cs as [|[k c] cs IH]; intros strs; cbn [format_controls].
  - now intros [= <-].
  - destruct (format_control repr k c); [|discriminate]. cbn [obind].
    destruct (format_controls repr cs) as [r|]; [|discriminate]. cbn [obind].
    intros [= <-]. cbn [length]. now rewrite (IH r).
Qed.

Lemma tab_lines_length (tab_name : string) (tab_groups : list (string * group))
    (lines : list string) :
  Forall (fun kv => g_controls kv.2 ≠ []) tab_groups →
  tab_lines repr tab_name tab_groups = Some lines →
  length lines = length tab_groups.
Proof.
  intros Hall. revert lines.
  induction Hall as [|[k g] rest Hg _ IH]; intros lines; cbn [tab_lines].
  - now intros [= <-].
  - destruct (format_controls repr (g_controls g)) as [strs|] eqn:Hstrs;
      [|discriminate].
    cbn [obind]. destruct (tab_lines repr tab_name rest) as [r|]; [|discriminate].
    cbn [obind]. apply format_controls_length in Hstrs. cbn [snd] in Hg.
    destruct strs as [|str strs].
    + destruct (g_controls g); [now elim Hg | discriminate Hstrs].
    + intros [= <-]. cbn [length]. now rewrite (IH r).
Qed.

Lemma filter_Forall_keep {A : Type} (P : A → Prop) (f : A → bool) (l : list A) :
  Forall P l → Forall P (List.filter f l).
Proof.
  induction 1 as [|x l Hx _ IH]; cbn [List.filter]; [constructor|].
  destruct (f x); [now constructor | exact IH].
Qed.

Lemma filter_or_length {A : Type} (p q : A → bool) (l : list A) :
  (∀ x, p x = true → q x = false) →
  length (List.filter (fun x => p x || q x) l)
  = (length (List.filter p l) + length (List.filter q l))%nat.
Proof.
  intros Hpq. induction l as [|x l IH]; [reflexivity|].
  cbn [List.filter]. destruct (p x) eqn:Hp; cbn [orb length].
  - rewrite (Hpq x Hp). now rewrite IH.
  - destruct (q x); cbn [length]; rewrite IH; lia.
Qed.

(** X12. A widget block has one bullet line for each group of the tabs
    [content] and [style]: the guard on an empty list of fragments never
    drops a group. *)
Theorem one_bullet_per_group (cs : list (string * json))
    (grouped : list (string * group)) (lines : list string) :
  widget_groups repr cs = Some grouped →
  widget_lines repr ["content"; "style"] grouped = Some lines →
  length lines
  = length (List.filter (fun kv => Py.is_str (g_tab kv.2) "content"
                                   || Py.is_str (g_tab kv.2) "style") grouped).
Proof.
  intros Hgroups Hlines.
  assert (Hall : Forall (fun kv : string * group => g_controls kv.2 ≠ []) grouped).
  { unfold widget_groups in Hgroups.
    destruct (collect_sections cs ∅ ∅) as [meta|]; [|discriminate].
    cbn [obind] in Hgroups.
    pose proof (group_controls_not_empty repr _ _ cs [] grouped Hgroups) as Hne.
    assert (Hkeys : ∀ l : list (string * group),
               (∀ gk g, group_at gk l = Some g → g_controls g ≠ []) →
               NoDup (map fst l) →
               Forall (fun kv : string * group => g_controls kv.2 ≠ []) l).
    { induction l as [|[k g] l IH]; intros Hl Hnd; [constructor|].
      cbn [map fst] in Hnd. apply NoDup_cons in Hnd as [Hk Hnd].
      constructor.
      - apply (Hl k g). cbn [group_at]. now rewrite String.eqb_refl.
      - apply IH; [|exact Hnd]. intros gk g' Hg'. apply (Hl gk g').
        cbn [group_at]. destruct (String.eqb_spec k gk) as [->|_]; [|exact Hg'].
        exfalso. apply Hk. clear -Hg'.
        induction l as [|[k' g0] l IHl]; [discriminate Hg'|].
        cbn [group_at] in Hg'. cbn [map fst].
        destruct (String.eqb_spec k' gk) as [->|_]; [left | right; auto]. }
    apply Hkeys; [apply Hne; discriminate|].
    rewrite (group_controls_keys repr _ _ cs [] grouped Hgroups).
    apply first_seen_step_NoDup. constructor. }
  cbn [widget_lines] in Hlines.
  destruct (tab_lines repr "content" _) as [content|] eqn:Hcontent; [|discriminate].
  cbn [obind] in Hlines.
  destruct (tab_lines repr "style" _) as [style|] eqn:Hstyle; [|discriminate].
  cbn [obind] in Hlines. injection Hlines as <-.
  apply tab_lines_length in Hcontent; [|now apply filter_Forall_keep].
  apply tab_lines_length in Hstyle; [|now apply filter_Forall_keep].
  rewrite app_nil_r, length_app, Hcontent, Hstyle.
  symmetry. apply (filter_or_length
                     (fun kv : string * group => Py.is_str (g_tab kv.2) "content")
                     (fun kv : string * group => Py.is_str (g_tab kv.2) "style")).
  intros [k g] H. cbn [snd] in *. apply is_str_eq in H. now rewrite H.
Qed.

(** X13. A control that is filed is in the group of its composite key, and,
    when no control of the widget reaches that key from another tab or
    section, the group carries the tab of the control and the label recorded
    for its section, or the section itself when no header control names it. *)
Theorem filed_control_group (cs : list (string * json))
    (meta : gmap string json * gmap string json)
    (grouped : list (string * group)) (kc : string * json) (section tab : json) :
  collect_sections cs ∅ ∅ = Some meta →
  widget_groups repr cs = Some grouped →
  In kc cs →
  filed meta.2 kc section tab →
  Py.is_str tab "advanced" = false →
  ∃ g, group_at (group_key repr tab section) grouped = Some g
       ∧ In kc (g_controls g)
       ∧ (no_key_collision repr meta.2 cs tab section →
          g_tab g = tab
          ∧ Py.lookup_d meta.1 section section = Some (g_label g)).
Proof.
  intros Hmeta Hgroups Hin Hfiled Hnot.
  unfold widget_groups in Hgroups. rewrite Hmeta in Hgroups. cbn [obind] in Hgroups.
  destruct meta as [labels tabs]. cbn [fst snd] in *.
  apply in_split in Hin as [pre [post ->]].
  apply group_controls_app in Hgroups as [mid [Hpre Hpost]].
  cbn [group_controls] in Hpost.
  rewrite (file_control_filed repr labels tabs kc section tab mid Hfiled Hnot) in Hpost.
  destruct (Py.lookup_d labels section section) as [label|] eqn:Hl;
    [|discriminate].
  cbn [obind] in Hpost.
  set (gk := group_key repr tab section) in *.
  pose proof (group_at_add gk gk label tab kc mid) as Hadd.
  rewrite String.eqb_refl in Hadd.
  destruct (group_controls_persist repr labels tabs _ _ _ _ _ Hpost Hadd)
    as [g [Hg [Hlabel [Htab Hentries]]]].
  exists g. split; [exact Hg|]. split.
  - apply Hentries. destruct (group_at gk mid); cbn [g_controls].
    + apply in_or_app. right. now left.
    + now left.
  - intros Hfree. rewrite Hlabel, Htab.
    destruct (group_at gk mid) as [g0|] eqn:Hg0; cbn [g_label g_tab];
      [|now split].
    assert (Hcreated : created_from repr labels tabs (pre ++ kc :: post) mid).
    { apply (group_controls_created repr labels tabs _ pre [] mid Hpre).
      - intros x Hx. apply in_or_app. now left.
      - intros gk' g' Hg'. discriminate Hg'. }
    destruct (Hcreated _ _ Hg0)
      as [[key' ctrl'] [section' [tab' [Hin' [[Hsk' [Hs' Ht']] [Hgk [Htab' Hlab']]]]]]].
    cbn [fst snd] in Hsk', Hs', Ht'.
    destruct (Hfree key' ctrl' section' tab' Hin' Hsk' Hs' Ht' (eq_sym Hgk))
      as [-> ->].
    split; [exact Htab'|]. now rewrite Hl in Hlab'.
Qed.

End Bullets.

(** ** The worklist and the requests *)

(** X14. The worklist holds the identifiers of the list response that no
    exclusion rule catches, each as often and in the order in which the
    response has them. *)
Theorem practical_keeps_the_rest (widgets : list (string * json)) :
  practical widgets = List.filter (fun name => negb (excluded name)) (map fst widgets).
Proof.
  unfold excluded.
  induction widgets as [|[name w] widgets IH]; cbn [practical map fst List.filter];
    [reflexivity|].
  destruct (Py.mem name skip_names); cbn [orb negb]; [exact IH|].
  destruct (existsb (Py.startswith name) skip_prefixes); cbn [negb]; [exact IH|].
  now rewrite IH.
Qed.

Section Requests.
Variable repr : json → string.
Variable request_ok : string → bool.
Variable urlopen : string → string → option json.
Variable stdout_ok : string → bool.

(** The events of one turn: the request when it is built, then the SKIP line
    or, after every twentieth widget, the progress line. *)
Lemma fetch_one_turn (base auth : string) (total : nat) (name : string)
    (i : nat) (output_by_cat : buckets) :
  (fetch_one repr request_ok urlopen base auth total name i output_by_cat).1
  = (if request_ok (base +:+ "/" +:+ name)
     then [Get (base +:+ "/" +:+ name) auth] else [])
    ++ (if processed repr request_ok urlopen base auth name then
          if (S i mod 20 =? 0)%nat then
            [Stderr ("  " +:+ Py.str_int (Z.of_nat (S i)) +:+ "/"
                     +:+ Py.str_int (Z.of_nat total) +:+ "...")]
          else []
        else [StderrSkip name]).
Proof.
  unfold fetch_one, processed, detail_of.
  destruct (request_ok _); [|reflexivity].
  destruct (urlopen _ auth) as [detail|]; [|reflexivity].
  unfold file_widget. fold (widget_category detail).
  destruct (widget_category detail) as [cat|]; [|reflexivity].
  destruct (format_widget repr name detail) as [block|]; [|reflexivity].
  now destruct (S i mod 20 =? 0)%nat.
Qed.

Lemma fetch_one_request (base auth : string) (total : nat) (name : string)
    (i : nat) (output_by_cat : buckets) :
  requests (fetch_one repr request_ok urlopen base auth total name i output_by_cat).1
  = if request_ok (base +:+ "/" +:+ name)
    then [Get (base +:+ "/" +:+ name) auth] else [].
Proof.
  rewrite fetch_one_turn. unfold requests.
  destruct (request_ok _); destruct (processed _ _ _ _ _ _);
    try destruct (S i mod 20 =? 0)%nat; reflexivity.
Qed.

Lemma fetch_loop_request_list (base auth : string) (total : nat)
    (names : list string) (i : nat) (output_by_cat : buckets) :
  requests (fetch_loop repr request_ok urlopen base auth total names i output_by_cat).1
  = map (fun name => Get (base +:+ "/" +:+ name) auth)
        (List.filter (fun name => request_ok (base +:+ "/" +:+ name)) names).
Proof.
  revert i output_by_cat.
  induction names as [|name names IH]; intros i output_by_cat; [reflexivity|].
  cbn [fetch_loop List.filter].
  pose proof (fetch_one_request base auth total name i output_by_cat) as Hone.
  destruct (fetch_one repr request_ok urlopen base auth total name i output_by_cat)
    as [events o].
  specialize (IH (S i) o).
  destruct (fetch_loop repr request_ok urlopen base auth total names (S i) o) as [later o'].
  cbn [fst] in Hone, IH |- *. unfold requests in *.
  rewrite List.filter_app, Hone, IH.
  now destruct (request_ok _).
Qed.

(** X15. When the list request is built and its response is a mapping with a
    [widgets] mapping, the requests of a run are the list request and then,
    in lexicographic order of the identifiers, one detail request for each
    identifier of the worklist whose URL the request constructor accepts,
    all with the same Authorization header. *)
Theorem one_request_per_widget (argv : list string) (environ : gmap string string)
    (site_url username password : string) (d widgets : list (string * json)) :
  credentials argv environ = Some (site_url, username, password) →
  let base := Py.rstrip_slash site_url +:+ "/wp-json/communitytech/v1/elementor/widgets" in
  let auth := "Basic " +:+ Py.b64encode (username +:+ ":" +:+ password) in
  request_ok base = true →
  urlopen base auth = Some (JObj d) →
  Py.dict_get "widgets" d = Some (JObj widgets) →
  requests (main repr request_ok urlopen stdout_ok argv environ)
  = Get base auth
    :: map (fun name => Get (base +:+ "/" +:+ name) auth)
           (List.filter (fun name => request_ok (base +:+ "/" +:+ name))
                        (Py.sorted_str (practical widgets)))
  ∧ Permutation (Py.sorted_str (practical widgets)) (practical widgets)
  ∧ StronglySorted lex_le (Py.sorted_str (practical widgets)).
Proof.
  intros Hcred base auth Hbase Hlist Hwidgets.
  split; [|split; [apply sorted_str_perm | apply sorted_str_sorted]].
  unfold main. rewrite Hcred. fold base auth. rewrite Hbase, Hlist.
  unfold run_with. rewrite Hwidgets.
  pose proof (fetch_loop_request_list base auth (length (practical widgets))
                (Py.sorted_str (practical widgets)) 0 []) as Hreq.
  destruct (fetch_loop repr request_ok urlopen base auth (length (practical widgets))
              (Py.sorted_str (practical widgets)) 0 []) as [events o].
  cbn [fst] in Hreq. unfold requests in *. cbn [List.filter is_get].
  rewrite List.filter_app, Hreq. f_equal.
  destruct (document repr o) as [md|]; [destruct (stdout_ok _)|];
    cbn [List.filter is_get]; apply app_nil_r.
Qed.

(** X16. The fetch loop does, widget by widget in the order of the worklist,
    this and nothing else: the detail request, unless the request
    constructor rejects its URL; then the line [SKIP] with the identifier
    when the turn raised, that is when the detail was not fetched, its
    primary category cannot be a key, or its formatting raised; otherwise
    nothing, except that a widget carried to the end whose number in the
    worklist, counted from 1, is a multiple of 20 is followed at once by the
    progress line with that number and the size of the worklist. *)
Theorem progress_every_twenty (base auth : string) (total : nat)
    (names : list string) (i : nat) (output_by_cat : buckets) :
  (fetch_loop repr request_ok urlopen base auth total names i output_by_cat).1
  = flat_map
      (fun turn : nat * string =>
         let url := base +:+ "/" +:+ turn.2 in
         (if request_ok url then [Get url auth] else [])
         ++ (if processed repr request_ok urlopen base auth turn.2 then
               if (S turn.1 mod 20 =? 0)%nat then
                 [Stderr ("  " +:+ Py.str_int (Z.of_nat turn.1 + 1) +:+ "/"
                          +:+ Py.str_int (Z.of_nat total) +:+ "...")]
               else []
             else [StderrSkip turn.2]))
      (enumerate_from i names).
Proof.
  revert i output_by_cat.
  induction names as [|name names IH]; intros i output_by_cat; [reflexivity|].
  cbn [fetch_loop enumerate_from flat_map fst snd].
  pose proof (fetch_one_turn base auth total name i output_by_cat) as Hone.
  destruct (fetch_one repr request_ok urlopen base auth total name i output_by_cat)
    as [events o].
  specialize (IH (S i) o).
  destruct (fetch_loop repr request_ok urlopen base auth total names (S i) o) as [later o'].
  cbn [fst] in Hone, IH |- *. rewrite Hone, IH.
  now replace (Z.of_nat i + 1) with (Z.of_nat (S i)) by lia.
Qed.

End Requests.

(** ** The buckets of the categories *)

Lemma Qeq_bool_left (x y z : Q) : (x == y)%Q → Qeq_bool x z = Qeq_bool y z.
Proof.
  intros Hxy.
  destruct (Qeq_bool x z) eqn:Hxz, (Qeq_bool y z) eqn:Hyz; try reflexivity.
  - apply Qeq_bool_iff in Hxz. apply Qeq_bool_neq in Hyz.
    elim Hyz. now rewrite <- Hxy.
  - apply Qeq_bool_iff in Hyz. apply Qeq_bool_neq in Hxz.
    elim Hxz. now rewrite Hxy.
Qed.

(** Two keys equal to a third are equal to the same keys. *)
Lemma key_eqb_left (k a c : json) :
  Py.key_eqb k a = true → Py.key_eqb k c = Py.key_eqb a c.
Proof.
  destruct k, a; cbn [Py.key_eqb Py.num]; try discriminate; intros H;
    destruct c; cbn [Py.key_eqb Py.num]; try reflexivity;
    try (apply String.eqb_eq in H; now subst);
    apply Qeq_bool_iff in H; now apply Qeq_bool_left.
Qed.

Lemma key_eqb_sym (a b : json) : Py.key_eqb a b = Py.key_eqb b a.
Proof.
  assert (Hq : ∀ x y, Qeq_bool x y = Qeq_bool y x).
  { intros x y. destruct (Qeq_bool y x) eqn:H.
    - apply Qeq_bool_iff. apply Qeq_bool_iff in H. now symmetry.
    - destruct (Qeq_bool x y) eqn:H'; [|reflexivity].
      apply Qeq_bool_iff in H'. apply Qeq_bool_neq in H. elim H. now symmetry. }
  destruct a, b; cbn [Py.key_eqb Py.num]; try reflexivity;
    try apply Hq; apply String.eqb_sym.
Qed.

Lemma key_eqb_refl (a : json) : Py.hashable a = true → Py.key_eqb a a = true.
Proof.
  destruct a; cbn [Py.key_eqb Py.num]; try discriminate; intros _;
    try reflexivity; try (apply Qeq_bool_iff; reflexivity).
  apply String.eqb_refl.
Qed.

Lemma blocks_ensure (cat c : json) (output_by_cat : buckets) :
  blocks c (ensure_bucket cat output_by_cat) = blocks c output_by_cat.
Proof.
  unfold blocks, ensure_bucket.
  destruct (bucket cat output_by_cat); [reflexivity|].
  induction output_by_cat as [|[k ws] rest IH]; cbn [app bucket].
  - now destruct (Py.key_eqb cat c).
  - destruct (Py.key_eqb k c); [reflexivity | exact IH].
Qed.

Lemma bucket_ensure (cat : json) (output_by_cat : buckets) :
  Py.hashable cat = true →
  bucket cat (ensure_bucket cat output_by_cat) ≠ None.
Proof.
  intros Hh. unfold ensure_bucket.
  destruct (bucket cat output_by_cat) eqn:Hb; [congruence|].
  induction output_by_cat as [|[k ws] rest IH]; cbn [app bucket] in *.
  - now rewrite key_eqb_refl.
  - destruct (Py.key_eqb k cat); [discriminate | auto].
Qed.

Lemma blocks_append (cat c : json) (block : string) (output_by_cat : buckets) :
  bucket cat output_by_cat ≠ None →
  blocks c (append_block cat block output_by_cat)
  = blocks c output_by_cat ++ (if Py.key_eqb cat c then [block] else []).
Proof.
  unfold blocks.
  induction output_by_cat as [|[k ws] rest IH]; cbn [bucket append_block];
    [congruence|].
  destruct (Py.key_eqb k cat) eqn:Hk; cbn [bucket].
  - intros _. rewrite <- (key_eqb_left k cat c Hk).
    destruct (Py.key_eqb k c); cbn [default from_option id];
      [reflexivity | now rewrite app_nil_r].
  - intros Hrest. destruct (Py.key_eqb k c) eqn:Hc.
    + rewrite (key_eqb_sym cat c), <- (key_eqb_left k c cat Hc), Hk.
      cbn [default from_option id]. now rewrite app_nil_r.
    + auto.
Qed.

Section Buckets.
Variable repr : json → string.
Variable request_ok : string → bool.
Variable urlopen : string → string → option json.
Variable stdout_ok : string → bool.

Lemma file_widget_blocks (name : string) (detail : json) (c : json)
    (output_by_cat : buckets) :
  blocks c (file_widget repr name detail output_by_cat).1
  = blocks c output_by_cat
    ++ match widget_category detail, format_widget repr name detail with
       | Some cat, Some block => if Py.key_eqb cat c then [block] else []
       | _, _ => []
       end.
Proof.
  unfold file_widget. fold (widget_category detail).
  destruct (widget_category detail) as [cat|] eqn:Hcat; cbn [fst];
    [|now rewrite app_nil_r].
  assert (Hh : Py.hashable cat = true).
  { unfold widget_category in Hcat.
    destruct (Py.get_d detail "categories" _); [|discriminate]. cbn [obind] in Hcat.
    destruct (primary_cat _) as [x|]; [|discriminate]. cbn [obind] in Hcat.
    destruct (Py.hashable x) eqn:Hx; [|discriminate]. now injection Hcat as <-. }
  destruct (format_widget repr name detail) as [block|]; cbn [fst].
  - rewrite blocks_append by now apply bucket_ensure.
    now rewrite blocks_ensure.
  - now rewrite blocks_ensure, app_nil_r.
Qed.

Lemma fetch_one_buckets (base auth : string) (total : nat) (name : string)
    (i : nat) (output_by_cat : buckets) :
  (fetch_one repr request_ok urlopen base auth total name i output_by_cat).2
  = match detail_of request_ok urlopen base auth name with
    | Some detail => (file_widget repr name detail output_by_cat).1
    | None => output_by_cat
    end.
Proof.
  unfold fetch_one, detail_of. destruct (request_ok _); [|reflexivity].
  destruct (urlopen _ auth) as [detail|]; [|reflexivity].
  destruct (file_widget repr name detail output_by_cat) as [o [|]]; [|reflexivity].
  now destruct (S i mod 20 =? 0)%nat.
Qed.

(** X17. The bucket of a category gains, in the order of the fetch loop, the
    blocks of the widgets whose detail is fetched, whose primary category is
    that category and whose formatting does not raise, and nothing else. *)
Theorem buckets_hold_blocks_in_fetch_order (base auth : string) (total : nat)
    (names : list string) (i : nat) (output_by_cat : buckets) (cat : json) :
  blocks cat (fetch_loop repr request_ok urlopen base auth total names i output_by_cat).2
  = blocks cat output_by_cat
    ++ flat_map (contribution repr request_ok urlopen base auth cat) names.
Proof.
  revert i output_by_cat.
  induction names as [|name names IH]; intros i output_by_cat;
    [cbn [fetch_loop snd flat_map]; now rewrite app_nil_r|].
  cbn [fetch_loop flat_map].
  pose proof (fetch_one_buckets base auth total name i output_by_cat) as Hone.
  destruct (fetch_one repr request_ok urlopen base auth total name i output_by_cat)
    as [events o].
  specialize (IH (S i) o).
  destruct (fetch_loop repr request_ok urlopen base auth total names (S i) o) as [later o'].
  cbn [snd] in Hone, IH |- *. rewrite IH, app_assoc. f_equal.
  subst o. unfold contribution.
  destruct (detail_of _ _ _ _ _) as [detail|]; [|now rewrite app_nil_r].
  apply file_widget_blocks.
Qed.

(** X18. A widget whose detail request fails leaves [output_by_cat] as it is:
    the buckets after the loop are those of the loop over the widgets whose
    request is answered. *)
Theorem failed_requests_change_no_bucket (base auth : string) (total total' : nat)
    (names : list string) (i j : nat) (output_by_cat : buckets) :
  (fetch_loop repr request_ok urlopen base auth total names i output_by_cat).2
  = (fetch_loop repr request_ok urlopen base auth total'
       (List.filter (fetched request_ok urlopen base auth) names) j output_by_cat).2.
Proof.
  revert i j output_by_cat.
  induction names as [|name names IH]; intros i j output_by_cat; [reflexivity|].
  cbn [fetch_loop List.filter].
  pose proof (fetch_one_buckets base auth total name i output_by_cat) as Hone.
  destruct (fetch_one repr request_ok urlopen base auth total name i output_by_cat)
    as [events o].
  specialize (IH (S i)).
  destruct (fetch_loop repr request_ok urlopen base auth total names (S i) o) as [later o'] eqn:Hl.
  cbn [snd] in Hone |- *. unfold fetched at 1.
  destruct (detail_of request_ok urlopen base auth name) as [detail|] eqn:Hurl.
  - cbn [fetch_loop].
    pose proof (fetch_one_buckets base auth total' name j output_by_cat) as Hone'.
    rewrite Hurl in Hone'.
    destruct (fetch_one repr request_ok urlopen base auth total' name j output_by_cat)
      as [events' p].
    cbn [snd] in Hone'. subst o p.
    specialize (IH (S j) (file_widget repr name detail output_by_cat).1).
    rewrite Hl in IH. cbn [snd] in IH. rewrite IH.
    now destruct (fetch_loop repr request_ok urlopen base auth total' _ (S j) _).
  - subst o. specialize (IH j output_by_cat). rewrite Hl in IH. exact IH.
Qed.

(** X19. A run that does not stop at the usage message is a sequence of
    requests and stderr lines followed by one last event: the document on
    stdout, or an exception that nothing catches.  So the document is printed
    at most once and after every fetch, and never after an uncaught
    exception. *)
Theorem run_ends_with_document_or_exception (argv : list string)
    (environ : gmap string string) :
  main repr request_ok urlopen stdout_ok argv environ = usage
  ∨ ∃ before,
      Forall (fun e => quiet e = true) before
      ∧ (main repr request_ok urlopen stdout_ok argv environ = before ++ [Uncaught]
         ∨ ∃ md, main repr request_ok urlopen stdout_ok argv environ
                 = before ++ [Stdout (Py.join newline md)]).
Proof.
  unfold main.
  destruct (credentials argv environ) as [[[site_url username] password]|];
    [|now left].
  right.
  set (base := Py.rstrip_slash site_url +:+ _).
  set (auth := "Basic " +:+ _).
  destruct (request_ok base).
  2:{ exists []. split; [constructor | now left]. }
  destruct (urlopen base auth) as [data|].
  2:{ exists [Get base auth]. split; [repeat constructor | now left]. }
  unfold run_with.
  destruct data as [| | | | | |d];
    try (exists [Get base auth]; split; [repeat constructor | now left]).
  destruct (Py.dict_get "widgets" d) as [[| | | | | |widgets]|];
    try (exists [Get base auth]; split; [repeat constructor | now left]).
  assert (Hquiet : ∀ names i o,
             Forall (fun e => quiet e = true)
                    (fetch_loop repr request_ok urlopen base auth (length (practical widgets))
                                names i o).1).
  { induction names as [|name names IH]; intros i o; [constructor|].
    cbn [fetch_loop].
    assert (Hone : Forall (fun e => quiet e = true)
                     (fetch_one repr request_ok urlopen base auth (length (practical widgets))
                                name i o).1).
    { unfold fetch_one. destruct (request_ok _); [|repeat constructor].
      destruct (urlopen _ auth) as [detail|].
      - destruct (file_widget repr name detail o) as [o1 [|]].
        + destruct (S i mod 20 =? 0)%nat; repeat constructor.
        + repeat constructor.
      - repeat constructor. }
    destruct (fetch_one repr request_ok urlopen base auth _ name i o) as [events o1].
    specialize (IH (S i) o1).
    destruct (fetch_loop repr request_ok urlopen base auth _ names (S i) o1) as [later o2].
    cbn [fst] in *. now apply Forall_app. }
  specialize (Hquiet (Py.sorted_str (practical widgets)) 0%nat []).
  destruct (fetch_loop repr request_ok urlopen base auth (length (practical widgets))
              (Py.sorted_str (practical widgets)) 0 []) as [events o].
  cbn [fst] in Hquiet.
  exists (Get base auth
          :: Stderr ("Fetching " +:+ Py.str_int (Z.of_nat (length (practical widgets)))
                     +:+ " widgets...") :: events).
  split; [repeat (constructor; [reflexivity|]); exact Hquiet|].
  destruct (document repr o) as [md|]; [|now left].
  destruct (stdout_ok _); [right; exists md | left]; reflexivity.
Qed.

End Buckets.

(** ** The site address *)

Lemma rstrip_slash_app (s : string) :
  Py.rstrip_slash (s +:+ "/") = Py.rstrip_slash s.
Proof.
  induction s as [|c s IH]; [reflexivity|].
  change (String c s +:+ "/") with (String c (s +:+ "/")).
  cbn [Py.rstrip_slash]. now rewrite IH.
Qed.

(** X20. A slash at the end of the site address given on the command line
    changes nothing: the run is the run without it. *)
Theorem trailing_slash_is_ignored (repr : json → string) (request_ok : string → bool)
    (urlopen : string → string → option json) (stdout_ok : string → bool)
    (environ : gmap string string) (script site_url username password : string) :
  main repr request_ok urlopen stdout_ok
       [script; site_url +:+ "/"; username; password] environ
  = main repr request_ok urlopen stdout_ok
         [script; site_url; username; password] environ.
Proof.
  unfold main. cbn [credentials]. now rewrite rstrip_slash_app.
Qed.

(** ** The sections of the document *)

Lemma has_bucket_keys (tbl : list (string * list string)) (cat : string) :
  has_bucket (string_keyed tbl) cat = true ↔ In cat (map fst tbl).
Proof.
  unfold has_bucket, string_keyed.
  induction tbl as [|[k ws] tbl IH]; cbn [map bucket fst snd In];
    [split; [discriminate | intros []]|].
  cbn [Py.key_eqb]. destruct (String.eqb_spec k cat) as [->|Hne].
  - split; [now left | reflexivity].
  - rewrite IH. split; [now right | intros [H|H]; [congruence | exact H]].
Qed.

Lemma filter_split_perm (f : string → bool) (l : list string) :
  Permutation (List.filter f l ++ List.filter (fun x => negb (f x)) l) l.
Proof.
  induction l as [|x l IH]; cbn [List.filter]; [reflexivity|].
  destruct (f x); cbn [negb app].
  - now constructor.
  - symmetry. apply Permutation_cons_app. now symmetry.
Qed.

(** X21. When the categories are pairwise different strings, each of them
    gets exactly one section in the document: the categories of the sections
    are a rearrangement of the keys of [output_by_cat]. *)
Theorem every_category_has_one_section (repr : json → string)
    (tbl : list (string * list string)) :
  NoDup (map fst tbl) →
  ∃ cats,
    document repr (string_keyed tbl)
    = Some (preamble ++ flat_map (section_of (string_keyed tbl)) cats)
    ∧ Permutation cats (map fst tbl).
Proof.
  intros Hnodup.
  exists (List.filter (has_bucket (string_keyed tbl)) category_order
          ++ List.filter (fun cat => negb (Py.mem cat category_order))
                         (Py.sorted_str (map fst tbl))).
  split.
  - unfold document.
    assert (Hkeys : map fst (string_keyed tbl) = map JStr (map fst tbl)).
    { unfold string_keyed. rewrite !List.map_map. reflexivity. }
    rewrite Hkeys, sorted_keys_str. cbn [obind].
    rewrite ordered_sections_flat, remaining_sections_flat, flat_map_app.
    reflexivity.
  - etransitivity;
      [|apply (filter_split_perm (fun cat => Py.mem cat category_order)
                                 (map fst tbl))].
    apply Permutation_app; [|apply filter_perm, sorted_str_perm].
    apply NoDup_Permutation.
    + apply NoDup_ListNoDup, List.NoDup_filter. unfold category_order.
      repeat (constructor; [cbn [In]; intuition discriminate|]). constructor.
    + now apply NoDup_ListNoDup, List.NoDup_filter, NoDup_ListNoDup.
    + intros cat. rewrite !list_elem_of_In, !List.filter_In, has_bucket_keys.
      unfold Py.mem. rewrite existsb_exists. split.
      * intros [Hin Hkey]. split; [exact Hkey|].
        exists cat. split; [exact Hin | apply String.eqb_refl].
      * intros [Hkey [x [Hin Heq]]]. apply String.eqb_eq in Heq. subst x.
        now split.
Qed.

(** * The embedding on the examples of the reference *)

Example slider_with_default :
  format_control sample_repr "key"
    (JObj [("type", JStr "slider");
           ("default", JObj [("size", JInt 10); ("unit", JStr "px")])])
  = Some "`key` (slider, default: 10px)".
Proof. reflexivity. Qed.

Example short_text_default :
  format_control sample_repr "title"
    (JObj [("type", JStr "text"); ("default", JStr "Add Your Heading")])
  = Some ("`title` (text, default: " +:+ dquote +:+ "Add Your Heading" +:+ dquote +:+ ")").
Proof. reflexivity. Qed.

Example options_as_sequence :
  format_control sample_repr "view"
    (JObj [("type", JStr "select"); ("options", JArr [])])
  = Some "`view` (select)".
Proof. reflexivity. Qed.

Example css_filter_toggle_kept :
  should_skip "css_filters_css_filter" typography_toggle = Some false
  ∧ should_skip "css_filters_blur" typography_toggle = Some true
  ∧ should_skip "title_tablet" typography_toggle = Some true.
Proof. repeat split. Qed.

Example heading_site_run :
  main sample_repr with_scheme example_site any_text
       ["generate-widget-reference.py"; "https://example.com/"; "admin"; "xxxx xxxx"] ∅
  = [ Get "https://example.com/wp-json/communitytech/v1/elementor/widgets"
          "Basic YWRtaW46eHh4eCB4eHh4";
      Stderr "Fetching 1 widgets...";
      Get "https://example.com/wp-json/communitytech/v1/elementor/widgets/heading"
          "Basic YWRtaW46eHh4eCB4eHh4";
      Stdout (Py.join newline
                (preamble
                 ++ [""; "## basic"; "";
                     Py.join newline ["### `heading` — Heading";
                                      "- **Title** (content): `title` (text)"];
                     ""])) ].
Proof. reflexivity. Qed.

(** * Corner cases behind the provisos of the amended statements *)

(** A site address without a scheme: the request constructor raises, and the
    run ends before anything is requested. *)
Example site_without_scheme :
  main sample_repr with_scheme example_site any_text
       ["generate-widget-reference.py"; "example.com"; "admin"; "xxxx xxxx"] ∅
  = [Uncaught].
Proof. reflexivity. Qed.

(** A standard output that cannot encode the document: every widget is
    fetched, and the final [print] raises. *)
Example stdout_that_cannot_encode :
  main sample_repr with_scheme example_site no_text
       ["generate-widget-reference.py"; "https://example.com/"; "admin"; "xxxx xxxx"] ∅
  = [ Get "https://example.com/wp-json/communitytech/v1/elementor/widgets"
          "Basic YWRtaW46eHh4eCB4eHh4";
      Stderr "Fetching 1 widgets...";
      Get "https://example.com/wp-json/communitytech/v1/elementor/widgets/heading"
          "Basic YWRtaW46eHh4eCB4eHh4";
      Uncaught ].
Proof. reflexivity. Qed.

(** The twentieth widget fails: its SKIP line takes the place of the
    progress line. *)
Example no_progress_after_a_failed_widget :
  (fetch_loop sample_repr any_url patchy_site "https://example.com" "Basic Og=="
              21 twenty_one 0 []).1
  = flat_map (fun name =>
                Get ("https://example.com/" +:+ name) "Basic Og=="
                :: (if Py.mem name ["a07"; "a20"] then [StderrSkip name] else []))
             twenty_one.
Proof. reflexivity. Qed.

(** A choose control without options gets an empty pair of parentheses. *)
Example choose_without_options :
  format_control sample_repr "align" (JObj [("type", JStr "choose")])
  = Some "`align` ()".
Proof. reflexivity. Qed.

(** A select control whose options are a text raises at [options.keys()]. *)
Example select_with_text_options_raises :
  format_control sample_repr "align"
    (JObj [("type", JStr "select"); ("options", JStr "left,right")])
  = None.
Proof. reflexivity. Qed.

(** Two controls with different tabs and sections can reach one composite
    key; the second joins the group the first created. *)
Example composite_key_collision :
  widget_groups sample_repr
    [("first", JObj [("type", JStr "text"); ("section", JStr "b|other"); ("tab", JStr "a")]);
     ("second", JObj [("type", JStr "text"); ("tab", JStr "a|b")])]
  = Some [("a|b|other",
           Group (JStr "b|other") (JStr "a")
                 [("first", JObj [("type", JStr "text"); ("section", JStr "b|other");
                                  ("tab", JStr "a")]);
                  ("second", JObj [("type", JStr "text"); ("tab", JStr "a|b")])])].
Proof. reflexivity. Qed.

(** A widget whose detail has a list for [controls] leaves an empty bucket:
    its category is created before [format_widget] raises. *)
Example failed_widget_leaves_bucket :
  file_widget sample_repr "spacer" (JObj [("controls", JArr [])]) []
  = ([(JStr "uncategorized", [])], false).
Proof. reflexivity. Qed.

(** * The theorems at work *)

Lemma should_skip_keeps_toggle_witness :
  should_skip "title_text_shadow_text_shadow_type" typography_toggle = Some false.
Proof.
  apply (should_skip_keeps_toggle _ _ (Some (JStr "popover_toggle")));
    try reflexivity.
  - exists "_text_shadow". split; [|reflexivity].
    do 9 right. left. reflexivity.
  - right. reflexivity.
Defined.

Lemma should_skip_underscore_witness :
  should_skip "_text_shadow_type" typography_toggle = Some true.
Proof. apply should_skip_underscore. reflexivity. Defined.

Lemma select_fragment_witness :
  format_control sample_repr "size" (JObj size_select)
  = Some "`size` (xs, s, m, l, xl, +3)".
Proof.
  refine (proj2 (proj2 (select_fragment sample_repr "size" size_select eight_options
                          eq_refl eq_refl _)) eq_refl).
  discriminate.
Defined.

Lemma slider_without_size_witness :
  format_control sample_repr "width" (JObj zero_slider) = Some "`width` (slider)".
Proof.
  apply (slider_without_size sample_repr "width" zero_slider
           [("size", JInt 0); ("unit", JStr "px")]); try reflexivity.
  right. left. reflexivity.
Defined.

Lemma format_control_parenthetical_witness :
  format_control sample_repr "align" (JObj align_choose) = Some "`align` (left, right)"
  ∧ format_control sample_repr "align" (JObj [("type", JStr "choose"); ("options", JObj [])])
    = Some "`align` ()".
Proof.
  split.
  - destruct (format_control_parenthetical sample_repr "align" align_choose)
      as [body [Hrun [Hchoose _]]].
    + intros H. discriminate H.
    + rewrite Hrun.
      rewrite (Hchoose [("left", JStr "Left"); ("right", JStr "Right")] eq_refl eq_refl).
      reflexivity.
  - destruct (format_control_parenthetical sample_repr "align"
                [("type", JStr "choose"); ("options", JObj [])])
      as [body [Hrun [_ Hempty]]].
    + intros H. discriminate H.
    + rewrite Hrun. rewrite (proj2 Hempty); [reflexivity|].
      right. split; [reflexivity|]. exists []. split; [reflexivity | now left].
Defined.

Lemma advanced_controls_are_omitted_witness :
  format_widget sample_repr "spacer" spacer
  = Some (Py.join newline ["### `spacer` — Spacer"; "*space*"]).
Proof.
  refine (proj1 (proj1 (advanced_controls_are_omitted sample_repr "spacer" spacer
                          spacer_controls
                          (<["section_effects" := JStr "section_effects"]> ∅,
                           <["section_effects" := JStr "advanced"]> ∅)
                          ["### `spacer` — Spacer"; "*space*"]
                          eq_refl eq_refl eq_refl) _)).
  repeat (apply List.Forall_cons;
          [first [left; reflexivity | right; reflexivity]|]).
  apply List.Forall_nil.
Defined.

Lemma sectionless_control_group_witness :
  ∃ g,
    group_at "content|other"
             [("content|section_anchor",
               Group (JStr "Anchor") (JStr "content")
                     [("anchor", JObj [("type", JStr "text");
                                       ("section", JStr "section_anchor")])]);
              ("content|other",
               Group (JStr "other") (JStr "content")
                     [("note", JObj [("type", JStr "text")])])]
    = Some g
    ∧ In ("note", JObj [("type", JStr "text")]) (g_controls g)
    ∧ g_label g = JStr "other" ∧ g_tab g = JStr "content".
Proof.
  destruct (sectionless_control_group sample_repr anchor_controls
              (<["section_anchor" := JStr "Anchor"]> ∅,
               <["section_anchor" := JStr "content"]> ∅)
              [("content|section_anchor",
                Group (JStr "Anchor") (JStr "content")
                      [("anchor", JObj [("type", JStr "text");
                                        ("section", JStr "section_anchor")])]);
               ("content|other",
                Group (JStr "other") (JStr "content")
                      [("note", JObj [("type", JStr "text")])])]
              "note" [("type", JStr "text")])
    as [tab [g [Htab [Hg [Hin Hrest]]]]]; try reflexivity.
  - do 2 right. left. reflexivity.
  - assert (Etab : tab = JStr "content").
    { assert (E : Some tab = Some (JStr "content")) by (rewrite <- Htab; reflexivity).
      now injection E. }
    subst tab.
    destruct Hrest as [_ Hrest].
    { intros ctrl ty [H|[H|[H|[]]]] _; discriminate H. }
    destruct Hrest as [Hlabel Hgtab].
    { intros key' ctrl' section' tab' [H|[H|[H|[]]]] Hskip Hs Ht Hgk;
        injection H as <- <-.
      - discriminate Hskip.
      - injection Hs as <-. injection Ht as <-. discriminate Hgk.
      - injection Hs as <-. injection Ht as <-. now split. }
    exists g. repeat split; assumption.
Defined.


Lemma category_sections_order_witness :
  document sample_repr (string_keyed four_categories)
  = Some (preamble
          ++ [ ""; "## basic"; "";
               ""; "## general"; ""; "g1"; ""; "g2"; "";
               ""; "## alpha"; ""; "a1"; "";
               ""; "## zeta"; ""; "z1"; "" ]).
Proof.
  destruct (category_sections_order sample_repr four_categories)
    as [rest [Hdoc [Hperm Hsorted]]].
  apply Permutation_sym, Permutation_length_2_inv in Hperm as [-> | ->].
  - inversion_clear Hsorted as [|? ? _ Hall].
    inversion_clear Hall as [|? ? Hle _]. discriminate Hle.
  - exact Hdoc.
Defined.

Lemma excluded_widgets_are_ignored_witness :
  ¬ In "common-base" (practical [("heading", JObj []); ("common-base", JObj [])]).
Proof.
  exact (proj1 (excluded_widgets_are_ignored sample_repr any_url no_web any_text
                  "common-base"
                  (or_introl eq_refl))
               [("heading", JObj []); ("common-base", JObj [])]).
Defined.

(** * The further properties at work *)

Lemma should_skip_raises_iff_witness :
  should_skip "title" (JArr []) = None.
Proof.
  apply (proj2 (should_skip_raises_iff "title" (JArr []))).
  split; [reflexivity | left; reflexivity].
Defined.

Lemma kept_control_passes_every_rule_witness :
  Py.startswith "title_typography_typography" "_" = false
  ∧ existsb (Py.endswith "title_typography_typography") SKIP_SUFFIXES = false.
Proof.
  destruct (kept_control_passes_every_rule "title_typography_typography"
              typography_toggle eq_refl) as [H1 [_ [H2 _]]].
  split; assumption.
Defined.

Lemma sub_property_is_skipped_witness :
  should_skip "title_typography_font_size" typography_toggle = Some true.
Proof.
  apply (sub_property_is_skipped _ _ (Some (JStr "popover_toggle")));
    reflexivity.
Defined.

Lemma format_control_raises_iff_witness :
  format_control sample_repr "align"
    (JObj [("type", JStr "select"); ("options", JStr "left,right")]) = None.
Proof.
  apply (proj2 (format_control_raises_iff sample_repr "align" _)).
  right. exists [("type", JStr "select"); ("options", JStr "left,right")].
  repeat split.
Defined.

Lemma format_control_key_independent_witness :
  ∃ suffix, ∀ key',
    format_control sample_repr key' (JObj size_select)
    = Some (quoted key' +:+ suffix).
Proof.
  exact (format_control_key_independent sample_repr "size" (JObj size_select)
           "`size` (xs, s, m, l, xl, +3)" eq_refl).
Defined.

Lemma groups_hold_the_kept_controls_witness :
  controls_at "content|section_button" button_groups
  = List.filter (files_under sample_repr button_meta.2 "content|section_button")
                button_controls.
Proof.
  exact (proj1 (groups_hold_the_kept_controls sample_repr button_controls
                  button_meta button_groups "content|section_button"
                  eq_refl eq_refl)).
Defined.

Lemma groups_in_first_seen_order_witness :
  map fst button_groups
  = first_seen (omap (filing_key sample_repr button_meta.2) button_controls).
Proof.
  exact (proj1 (groups_in_first_seen_order sample_repr button_controls
                  button_meta button_groups eq_refl eq_refl)).
Defined.

Lemma section_metadata_lookup_witness :
  button_meta.1 !! "section_button" = Some (JStr "Button")
  ∧ button_meta.2 !! "section_button" = Some (JStr "content").
Proof.
  refine (proj1 (section_metadata_lookup button_controls button_meta
                   "section_button" eq_refl _)
                [("type", JStr "section"); ("label", JStr "Button")] _ eq_refl).
  - apply NoDup_ListNoDup. unfold button_controls. cbn [map fst].
    repeat (constructor; [cbn [In]; intuition discriminate|]). constructor.
  - left. reflexivity.
Defined.

Lemma format_widget_raises_on_malformed_controls_witness :
  format_widget sample_repr "spacer" (JObj [("controls", JArr [])]) = None.
Proof.
  apply (format_widget_raises_on_malformed_controls sample_repr "spacer"
           (JObj [("controls", JArr [])]) (JArr []) eq_refl).
  left. reflexivity.
Defined.

Lemma format_widget_starts_with_heading_witness :
  ∃ title tail,
    Py.get_d spacer "title" (JStr "spacer") = Some title
    ∧ Py.join newline ["### `spacer` — Spacer"; "*space*"]
      = ("### `" +:+ "spacer" +:+ "` — " +:+ Py.str sample_repr title) +:+ tail.
Proof.
  exact (format_widget_starts_with_heading sample_repr "spacer" spacer
           (Py.join newline ["### `spacer` — Spacer"; "*space*"]) eq_refl).
Defined.

Lemma one_bullet_per_group_witness :
  length ["- **Button** (content): `text` (text) · `size` (select)";
          "- **other** (content): `note` (text)"]
  = length (List.filter (fun kv => Py.is_str (g_tab kv.2) "content"
                                   || Py.is_str (g_tab kv.2) "style")
                        button_groups).
Proof.
  exact (one_bullet_per_group sample_repr button_controls button_groups
           ["- **Button** (content): `text` (text) · `size` (select)";
            "- **other** (content): `note` (text)"] eq_refl eq_refl).
Defined.

Lemma filed_control_group_witness :
  ∃ g, group_at "content|section_button" button_groups = Some g
       ∧ In ("size", JObj [("type", JStr "select"); ("section", JStr "section_button")])
            (g_controls g).
Proof.
  destruct (filed_control_group sample_repr button_controls button_meta button_groups
              ("size", JObj [("type", JStr "select"); ("section", JStr "section_button")])
              (JStr "section_button") (JStr "content") eq_refl eq_refl)
    as [g [Hg [Hin _]]].
  - do 3 right. left. reflexivity.
  - repeat split.
  - reflexivity.
  - exists g. split; assumption.
Defined.

Lemma one_request_per_widget_witness :
  requests (main sample_repr with_scheme example_site any_text
              ["generate-widget-reference.py"; "https://example.com/"; "admin";
               "xxxx xxxx"] ∅)
  = [Get "https://example.com/wp-json/communitytech/v1/elementor/widgets"
         "Basic YWRtaW46eHh4eCB4eHh4";
     Get "https://example.com/wp-json/communitytech/v1/elementor/widgets/heading"
         "Basic YWRtaW46eHh4eCB4eHh4"].
Proof.
  exact (proj1 (one_request_per_widget sample_repr with_scheme example_site any_text
                  ["generate-widget-reference.py"; "https://example.com/"; "admin";
                   "xxxx xxxx"] ∅
                  "https://example.com/" "admin" "xxxx xxxx"
                  [("widgets", JObj [("heading", JObj []); ("common-base", JObj [])])]
                  [("heading", JObj []); ("common-base", JObj [])]
                  eq_refl eq_refl eq_refl eq_refl)).
Defined.

Lemma progress_every_twenty_witness :
  (fetch_loop sample_repr any_url bare_site "https://example.com" "Basic Og=="
              21 twenty_one 0 []).1
  = map (fun name => Get ("https://example.com/" +:+ name) "Basic Og==")
        (firstn 20 twenty_one)
    ++ [Stderr "  20/21..."; Get "https://example.com/a21" "Basic Og=="].
Proof.
  rewrite (progress_every_twenty sample_repr any_url bare_site "https://example.com"
             "Basic Og==" 21 twenty_one 0 []).
  reflexivity.
Defined.

Lemma every_category_has_one_section_witness :
  ∃ cats,
    document sample_repr (string_keyed [("zeta", []); ("basic", []); ("alpha", [])])
    = Some (preamble
            ++ flat_map (section_of (string_keyed [("zeta", []); ("basic", []);
                                                   ("alpha", [])])) cats)
    ∧ Permutation cats ["zeta"; "basic"; "alpha"].
Proof.
  apply (every_category_has_one_section sample_repr
           [("zeta", []); ("basic", []); ("alpha", [])]).
  apply NoDup_ListNoDup. cbn [map fst].
  repeat (constructor; [cbn [In]; intuition discriminate|]). constructor.
Defined.
